(** * Weather dashboard: a shallow embedding of [src/App.js]

    The repository is one React component, [App].  It keeps five pieces of
    hook state ([city], [inputCity], [currentWeatherData], [forecastData],
    [error]), one asynchronous operation ([fetchWeatherData]) with a single
    suspension point ([await axios.get(URL)]), one effect that re-runs the
    operation when [city] changes, a submit handler, a pure projection to
    chart data and a render with three guards.

    The embedding follows that shape:
    - JavaScript values as an inductive type, with truthiness, [&&], [||]
      and property reads that throw on [undefined] and [null];
    - the body of [fetchWeatherData] as a program in a small monad of
      effects (the three state setters, the request, exceptions with
      [try]/[catch]);
    - the component as a state record plus the runtime's bookkeeping (the
      dependencies of the last effect run, the requests in flight), and a
      step function over user and network events. *)

From Stdlib Require Import List String Ascii Bool Arith ZArith QArith Lia.
From Stdlib Require Import DecimalString.
Import ListNotations.
Close Scope Q_scope.
Open Scope nat_scope.
Open Scope string_scope.
Set Warnings "-register-all".

(** ** JavaScript values *)

(** Values that can flow through the component: what [JSON.parse] builds
    from a response body, the error objects thrown at the [catch], and the
    initial values of the hooks.  Numbers are decimals of a JSON body; the
    component does no arithmetic on them, so a rational stands for each. *)
Inductive JsVal : Type :=
| JUndefined
| JNull
| JBool (b : bool)
| JNum (q : Q)
| JStr (s : string)
| JArr (items : list JsVal)
| JObj (fields : list (string * JsVal)).

(** ToBoolean: [undefined], [null], [false], [0] and the empty string are
    falsy, every object and array is truthy. *)
Definition truthy (v : JsVal) : bool :=
  match v with
  | JUndefined | JNull => false
  | JBool b => b
  | JNum q => negb (Z.eqb (Qnum q) 0)
  | JStr s => negb (s =? "")
  | JArr _ | JObj _ => true
  end.

Definition nullish (v : JsVal) : bool :=
  match v with
  | JUndefined | JNull => true
  | _ => false
  end.

(** Own property of an object, by name.  A parsed body lists each of its
    properties once. *)
Fixpoint lookup (name : string) (fields : list (string * JsVal)) : JsVal :=
  match fields with
  | [] => JUndefined
  | (k, v) :: rest => if k =? name then v else lookup name rest
  end.

(** ** Exceptions *)

(** A computation either has a value or throws one. *)
Inductive Result (A : Type) : Type :=
| Ok (a : A)
| Throw (e : JsVal).
Arguments Ok {A} a.
Arguments Throw {A} e.

Definition rbind {A B} (r : Result A) (f : A -> Result B) : Result B :=
  match r with
  | Ok a => f a
  | Throw e => Throw e
  end.

Fixpoint rmap {A B} (f : A -> Result B) (l : list A) : Result (list B) :=
  match l with
  | [] => Ok []
  | x :: rest =>
      rbind (f x) (fun y => rbind (rmap f rest) (fun ys => Ok (y :: ys)))
  end.

(** ** Effects of the fetch operation *)

(** How the promise of [axios.get] settles. *)
Inductive AxiosOutcome : Type :=
| Fulfilled (response : JsVal)
| Rejected (err : JsVal).

(** Programs over the effects [fetchWeatherData] has: the three setters it
    calls, the request it awaits, and exceptions.  [AxiosGet url k] is the
    suspension point: [k] is what runs when the promise settles. *)
Inductive Act (A : Type) : Type :=
| Pure (a : A)
| Raise (e : JsVal)
| SetError (v : JsVal) (k : Act A)
| SetCurrentWeatherData (v : JsVal) (k : Act A)
| SetForecastData (v : JsVal) (k : Act A)
| AxiosGet (url : string) (k : AxiosOutcome -> Act A).
Arguments Pure {A} a.
Arguments Raise {A} e.
Arguments SetError {A} v k.
Arguments SetCurrentWeatherData {A} v k.
Arguments SetForecastData {A} v k.
Arguments AxiosGet {A} url k.

Fixpoint bind {A B} (m : Act A) (f : A -> Act B) : Act B :=
  match m with
  | Pure a => f a
  | Raise e => Raise e
  | SetError v k => SetError v (bind k f)
  | SetCurrentWeatherData v k => SetCurrentWeatherData v (bind k f)
  | SetForecastData v k => SetForecastData v (bind k f)
  | AxiosGet url k => AxiosGet url (fun o => bind (k o) f)
  end.

(** [try { m } catch (err) { h err }] *)
Fixpoint try_catch {A} (m : Act A) (h : JsVal -> Act A) : Act A :=
  match m with
  | Pure a => Pure a
  | Raise e => h e
  | SetError v k => SetError v (try_catch k h)
  | SetCurrentWeatherData v k => SetCurrentWeatherData v (try_catch k h)
  | SetForecastData v k => SetForecastData v (try_catch k h)
  | AxiosGet url k => AxiosGet url (fun o => try_catch (k o) h)
  end.

Definition lift {A} (r : Result A) : Act A :=
  match r with
  | Ok a => Pure a
  | Throw e => Raise e
  end.

Definition setError (v : JsVal) : Act unit := SetError v (Pure tt).
Definition setCurrentWeatherData (v : JsVal) : Act unit :=
  SetCurrentWeatherData v (Pure tt).
Definition setForecastData (v : JsVal) : Act unit :=
  SetForecastData v (Pure tt).

(** [await axios.get(url)]: the response when the promise is fulfilled, a
    throw of the rejection value otherwise. *)
Definition axios_get (url : string) : Act JsVal :=
  AxiosGet url (fun o =>
    match o with
    | Fulfilled response => Pure response
    | Rejected err => Raise err
    end).

Declare Scope act_scope.
Delimit Scope act_scope with act.
Notation "x <- m ;; k" := (bind m (fun x => k))
  (at level 61, m at next level, right associativity) : act_scope.
Notation "m ;; k" := (bind m (fun _ => k))
  (at level 61, right associativity) : act_scope.

Declare Scope result_scope.
Delimit Scope result_scope with result.
Notation "x <- r ;; k" := (rbind r (fun x => k))
  (at level 61, r at next level, right associativity) : result_scope.

(** ** Percent-encoding *)

Definition hex_digit (n : nat) : ascii :=
  match String.get n "0123456789ABCDEF" with
  | Some c => c
  | None => "F"%char
  end.

(** Characters [encodeURIComponent] leaves alone: letters, digits and
    [- _ . ! ~ * ' ( )]. *)
Definition uri_unreserved (c : ascii) : bool :=
  let n := nat_of_ascii c in
  (Nat.leb 48 n && Nat.leb n 57) || (Nat.leb 65 n && Nat.leb n 90)
  || (Nat.leb 97 n && Nat.leb n 122)
  || existsb (Nat.eqb n) [45; 95; 46; 33; 126; 42; 39; 40; 41].

(** What the specification calls URL-encoded: the standard
    [encodeURIComponent], byte by byte over the UTF-8 text.  The source
    never calls it; it is here to compare the requested URL against. *)
Fixpoint encodeURIComponent (s : string) : string :=
  match s with
  | EmptyString => EmptyString
  | String c rest =>
      if uri_unreserved c
      then String c (encodeURIComponent rest)
      else let n := nat_of_ascii c in
           String "%" (String (hex_digit (n / 16)) (String (hex_digit (n mod 16))
             (encodeURIComponent rest)))
  end.

(** ** Sample values *)

(** The wording of V8 (Chrome, Node). *)
Definition v8_type_error_message (v : JsVal) (name : string) : string :=
  match v with
  | JUndefined =>
      "Cannot read properties of undefined (reading '" ++ name ++ "')"
  | JNull => "Cannot read properties of null (reading '" ++ name ++ "')"
  | _ => name ++ " is not a function"
  end.

Definition sample_current : JsVal :=
  JObj [("temp_f", JNum (712 # 10)%Q);
        ("condition",
         JObj [("text", JStr "Partly cloudy");
               ("icon", JStr "//cdn.weatherapi.com/weather/64x64/day/116.png")]);
        ("humidity", JNum (64 # 1)%Q);
        ("wind_mph", JNum (81 # 10)%Q);
        ("wind_dir", JStr "WSW")].

Definition sample_day (date : string) (avg max min : Q) : JsVal :=
  JObj [("date", JStr date);
        ("day", JObj [("maxtemp_f", JNum max);
                      ("mintemp_f", JNum min);
                      ("avgtemp_f", JNum avg)])].

Definition sample_days : list JsVal :=
  [ sample_day "2024-05-01" (60 # 1)%Q (66 # 1)%Q (54 # 1)%Q;
    sample_day "2024-05-02" (615 # 10)%Q (68 # 1)%Q (55 # 1)%Q;
    sample_day "2024-05-03" (59 # 1)%Q (63 # 1)%Q (551 # 10)%Q ].

(** An axios response with a body of the expected shape. *)
Definition sample_response : JsVal :=
  JObj [("data",
         JObj [("current", sample_current);
               ("forecast", JObj [("forecastday", JArr sample_days)])]);
        ("status", JNum (200 # 1)%Q)].

(** Bodies that lack the forecast: no [forecast] at all, and a [forecast]
    without [forecastday]. *)
Definition response_without_forecast : JsVal :=
  JObj [("data", JObj [("current", sample_current)]);
        ("status", JNum (200 # 1)%Q)].

Definition response_without_forecastday : JsVal :=
  JObj [("data", JObj [("current", sample_current); ("forecast", JObj [])]);
        ("status", JNum (200 # 1)%Q)].

(** The rejection of axios for an HTTP 400 with the API's error body. *)
Definition no_match_error : JsVal :=
  JObj [("message", JStr "Request failed with status code 400");
        ("response",
         JObj [("status", JNum (400 # 1)%Q);
               ("data",
                JObj [("error",
                       JObj [("message",
                              JStr "No matching location found.")])])])].

(** The rejection of axios when the network is unreachable. *)
Definition network_error : JsVal :=
  JObj [("message", JStr "Network Error")].

(** The spelling of a whole number.  The sample values below are shown
    with whole temperatures only. *)
Definition whole_number_text (q : Q) : string :=
  NilZero.string_of_int (Z.to_int (Qnum q / Zpos (Qden q))).

(** ** The component *)

Section Component.

(** Text of the [TypeError] the engine raises when property [name] of [v]
    cannot be used (a read on [undefined] or [null], a call of something
    that is no function).  The wording belongs to the JavaScript engine,
    not to the repository. *)
Variable type_error_message : JsVal -> string -> string.

(** [process.env.REACT_APP_WEATHERAPI_KEY]: a string fixed at build time,
    or [undefined] when the variable is not set. *)
Variable API_KEY : option string.

Definition TypeError (v : JsVal) (name : string) : JsVal :=
  JObj [("message", JStr (type_error_message v name))].

(** [v.name], for the property names this component reads ([data],
    [current], [forecast], [forecastday], [date], [day], the temperature
    fields, [response], [error], [message], ...).  None of them is an
    inherited property of a string, number, boolean or array, so on those
    the read gives [undefined]. *)
Definition prop (v : JsVal) (name : string) : Result JsVal :=
  match v with
  | JUndefined | JNull => Throw (TypeError v name)
  | JObj fields => Ok (lookup name fields)
  | JBool _ | JNum _ | JStr _ | JArr _ => Ok JUndefined
  end.

(** [a && b] and [a || b] with their short circuit: the right operand is
    only looked at when the left one does not decide. *)
Definition js_and (a b : Result JsVal) : Result JsVal :=
  (x <- a ;; if truthy x then b else Ok x)%result.

Definition js_or (a b : Result JsVal) : Result JsVal :=
  (x <- a ;; if truthy x then Ok x else b)%result.

(** [forecastData.map(f)] *)
Definition array_map (v : JsVal) (f : JsVal -> Result JsVal)
  : Result (list JsVal) :=
  match v with
  | JArr items => rmap f items
  | _ => Throw (TypeError v "map")
  end.

(** *** Hook state *)

Record State : Type := mkState {
  city : string;
  inputCity : string;
  currentWeatherData : JsVal;
  forecastData : JsVal;
  error : JsVal
}.

(** The values given to [useState]. *)
Definition initial_state : State :=
  {| city := "London";
     inputCity := "London";
     currentWeatherData := JNull;
     forecastData := JArr [];
     error := JNull |}.

Definition setCity (c : string) (st : State) : State :=
  {| city := c;
     inputCity := inputCity st;
     currentWeatherData := currentWeatherData st;
     forecastData := forecastData st;
     error := error st |}.

Definition setInputCity (c : string) (st : State) : State :=
  {| city := city st;
     inputCity := c;
     currentWeatherData := currentWeatherData st;
     forecastData := forecastData st;
     error := error st |}.

Definition store_currentWeatherData (v : JsVal) (st : State) : State :=
  {| city := city st;
     inputCity := inputCity st;
     currentWeatherData := v;
     forecastData := forecastData st;
     error := error st |}.

Definition store_forecastData (v : JsVal) (st : State) : State :=
  {| city := city st;
     inputCity := inputCity st;
     currentWeatherData := currentWeatherData st;
     forecastData := v;
     error := error st |}.

Definition store_error (v : JsVal) (st : State) : State :=
  {| city := city st;
     inputCity := inputCity st;
     currentWeatherData := currentWeatherData st;
     forecastData := forecastData st;
     error := v |}.

(** *** fetchWeatherData *)

Definition missing_key_message : string :=
  "API Key is missing. Please set REACT_APP_WEATHERAPI_KEY in your .env file.".

Definition unknown_error_message : string :=
  "An unknown error occurred while fetching weather data.".

Definition env_value (k : option string) : JsVal :=
  match k with
  | Some s => JStr s
  | None => JUndefined
  end.

(** [${API_KEY}] inside a template literal. *)
Definition env_text (k : option string) : string :=
  match k with
  | Some s => s
  | None => "undefined"
  end.

(** The template literal of line 53: both holes are filled with the text
    as it is. *)
Definition forecast_url (selectedCity : string) : string :=
  "https://api.weatherapi.com/v1/forecast.json?key=" ++ env_text API_KEY
    ++ "&q=" ++ selectedCity ++ "&days=7".

(** The argument of [setError] in the [catch] block (lines 68-70). *)
Definition catch_message (err : JsVal) : Result JsVal :=
  js_or
    (js_or
       (js_and
          (js_and
             (js_and
                (prop err "response")
                (response <- prop err "response" ;;
                 prop response "data")%result)
             (response <- prop err "response" ;;
              data <- prop response "data" ;;
              prop data "error")%result)
          (response <- prop err "response" ;;
           data <- prop response "data" ;;
           e <- prop data "error" ;;
           prop e "message")%result)
       (prop err "message"))
    (Ok (JStr unknown_error_message)).

(** The statements of the [try] block after the [await] (lines 57-63). *)
Definition try_block (response : JsVal) : Act unit :=
  (data <- lift (prop response "data") ;;
   current <- lift (prop data "current") ;;
   setCurrentWeatherData current ;;
   forecastday <- lift (forecast <- prop data "forecast" ;;
                        prop forecast "forecastday")%result ;;
   setForecastData forecastday)%act.

(** The [catch] block (lines 65-74). *)
Definition catch_block (err : JsVal) : Act unit :=
  (message <- lift (catch_message err) ;;
   setError message ;;
   setCurrentWeatherData JNull ;;
   setForecastData (JArr []))%act.

Definition fetchWeatherData (selectedCity : string) : Act unit :=
  if negb (truthy (env_value API_KEY)) then
    setError (JStr missing_key_message)
  else
    (setError JNull ;;
     setCurrentWeatherData JNull ;;
     setForecastData (JArr []) ;;
     let URL := forecast_url selectedCity in
     try_catch
       (response <- axios_get URL ;; try_block response)
       catch_block)%act.

(** *** handleSubmit *)

(** [e.preventDefault(); setCity(inputCity)] *)
Definition handleSubmit (st : State) : State :=
  setCity (inputCity st) st.

(** *** chartData *)

Record Dataset : Type := mkDataset {
  label : string;
  data : list JsVal;
  fill : bool;
  borderColor : string;
  backgroundColor : string;
  tension : Q;
  pointRadius : Z;
  pointBackgroundColor : string;
  pointBorderColor : string;
  pointHoverRadius : Z
}.

Record ChartData : Type := mkChartData {
  labels : list JsVal;
  datasets : list Dataset
}.

Definition line_series (name : string) (points : list JsVal)
    (rgb rgba : string) : Dataset :=
  {| label := name;
     data := points;
     fill := false;
     borderColor := rgb;
     backgroundColor := rgba;
     tension := (4 # 10)%Q;
     pointRadius := 5%Z;
     pointBackgroundColor := rgb;
     pointBorderColor := "#fff";
     pointHoverRadius := 7%Z |}.

(** [day => day.day.FIELD] *)
Definition day_field (name : string) (day : JsVal) : Result JsVal :=
  (d <- prop day "day" ;; prop d name)%result.

Definition chartData (forecast : JsVal) : Result ChartData :=
  (dates <- array_map forecast (fun day => prop day "date") ;;
   avg <- array_map forecast (day_field "avgtemp_f") ;;
   max <- array_map forecast (day_field "maxtemp_f") ;;
   min <- array_map forecast (day_field "mintemp_f") ;;
   Ok {| labels := dates;
         datasets :=
           [ line_series "Avg. Temperature (°F)" avg
               "rgb(75, 192, 192)" "rgba(75, 192, 192, 0.5)";
             line_series "Max Temperature (°F)" max
               "rgb(255, 99, 132)" "rgba(255, 99, 132, 0.5)";
             line_series "Min Temperature (°F)" min
               "rgb(54, 162, 235)" "rgba(54, 162, 235, 0.5)" ] |})%result.

(** *** What App returns *)

Record Card : Type := mkCard {
  heading : string;
  temp_f : JsVal;
  condition_text : JsVal;
  humidity : JsVal;
  wind_mph : JsVal;
  wind_dir : JsVal;
  icon : JsVal;
  alt : JsVal
}.

(** The three guarded regions of the returned tree (lines 213-235): the
    error banner with its text, the current-conditions card, the chart
    with its data and its title. *)
Record View : Type := mkView {
  banner : option JsVal;
  card : option Card;
  chart : option (ChartData * string)
}.

Definition weather_card (c : string) (w : JsVal) : Result Card :=
  (temp <- prop w "temp_f" ;;
   text <- (condition <- prop w "condition" ;; prop condition "text") ;;
   hum <- prop w "humidity" ;;
   mph <- prop w "wind_mph" ;;
   dir <- prop w "wind_dir" ;;
   src <- (condition <- prop w "condition" ;; prop condition "icon") ;;
   alt_text <- (condition <- prop w "condition" ;; prop condition "text") ;;
   Ok {| heading := "Current Weather in " ++ c;
         temp_f := temp;
         condition_text := text;
         humidity := hum;
         wind_mph := mph;
         wind_dir := dir;
         icon := src;
         alt := alt_text |})%result.

(** One evaluation of the function body after the hooks: [chartData] and
    the chart title are computed on every render (lines 89 and 146), then
    the tree is built.  [forecastData.length > 0] is reached only after
    [forecastData.map] went through, that is, on an array. *)
Definition render (st : State) : Result View :=
  (cd <- chartData (forecastData st) ;;
   let title := "7-Day Temperature Forecast for " ++ city st in
   let shown_error :=
     if truthy (error st) then Some (error st) else None in
   shown_card <-
     (if truthy (currentWeatherData st)
      then (c <- weather_card (city st) (currentWeatherData st) ;;
            Ok (Some c))
      else Ok None) ;;
   match forecastData st with
   | JArr items =>
       Ok {| banner := shown_error;
             card := shown_card;
             chart := if Nat.ltb 0 (List.length items)
                      then Some (cd, title) else None |}
   | other => Throw (TypeError other "map")
   end)%result.

(** *** One call, run to completion *)

(** What a call of [fetchWeatherData] does, in order. *)
Inductive Effect : Type :=
| ESetError (v : JsVal)
| ESetCurrentWeatherData (v : JsVal)
| ESetForecastData (v : JsVal)
| ERequest (url : string)
| EUnhandled (e : JsVal).

(** The effects of a program when [net] says how each request settles. *)
Fixpoint trace (net : string -> AxiosOutcome) (p : Act unit) : list Effect :=
  match p with
  | Pure _ => []
  | Raise e => [EUnhandled e]
  | SetError v k => ESetError v :: trace net k
  | SetCurrentWeatherData v k => ESetCurrentWeatherData v :: trace net k
  | SetForecastData v k => ESetForecastData v :: trace net k
  | AxiosGet url k => ERequest url :: trace net (k (net url))
  end.

Definition apply_effect (st : State) (e : Effect) : State :=
  match e with
  | ESetError v => store_error v st
  | ESetCurrentWeatherData v => store_currentWeatherData v st
  | ESetForecastData v => store_forecastData v st
  | ERequest _ | EUnhandled _ => st
  end.

(** The state after a call that nothing else interleaves with. *)
Definition fetch_alone (net : string -> AxiosOutcome) (selectedCity : string)
    (st : State) : State :=
  fold_left apply_effect (trace net (fetchWeatherData selectedCity)) st.

Definition requests_of (tr : list Effect) : list string :=
  flat_map (fun e => match e with ERequest url => [url] | _ => [] end) tr.

(** *** The component at run time *)

(** Hook state plus what React and the event loop keep for the component:
    the dependency array of the last effect run ([None] before the first
    commit), the requests whose promise has not settled yet, each with the
    rest of the call that awaits it, and a log of the calls of
    [fetchWeatherData] with their argument. *)
Record Runtime : Type := mkRuntime {
  hooks : State;
  last_deps : option (string * option string);
  in_flight : list (string * (AxiosOutcome -> Act unit));
  calls : list string
}.

Definition with_hooks (f : State -> State) (r : Runtime) : Runtime :=
  {| hooks := f (hooks r);
     last_deps := last_deps r;
     in_flight := in_flight r;
     calls := calls r |}.

(** Runs a call up to its next suspension point, where the rest of it is
    parked until the request settles. *)
Fixpoint exec (p : Act unit) (r : Runtime) : Runtime :=
  match p with
  | Pure _ => r
  | Raise _ => r
  | SetError v k => exec k (with_hooks (store_error v) r)
  | SetCurrentWeatherData v k =>
      exec k (with_hooks (store_currentWeatherData v) r)
  | SetForecastData v k => exec k (with_hooks (store_forecastData v) r)
  | AxiosGet url k =>
      {| hooks := hooks r;
         last_deps := last_deps r;
         in_flight := in_flight r ++ [(url, k)];
         calls := calls r |}
  end.

Definition env_eqb (a b : option string) : bool :=
  match a, b with
  | Some x, Some y => x =? y
  | None, None => true
  | _, _ => false
  end.

Definition deps_eqb (a b : string * option string) : bool :=
  (fst a =? fst b) && env_eqb (snd a) (snd b).

(** [useEffect(() => { fetchWeatherData(city) }, [city, API_KEY])]: after
    a render the effect runs when there was no earlier run or when the
    dependency array differs from the one of the last run. *)
Definition commit (r : Runtime) : Runtime :=
  let deps := (city (hooks r), API_KEY) in
  let changed :=
    match last_deps r with
    | None => true
    | Some old => negb (deps_eqb old deps)
    end in
  if changed
  then exec (fetchWeatherData (city (hooks r)))
         {| hooks := hooks r;
            last_deps := Some deps;
            in_flight := in_flight r;
            calls := calls r ++ [city (hooks r)] |}
  else r.

Fixpoint remove_nth {A} (n : nat) (l : list A) : list A :=
  match n, l with
  | _, [] => []
  | O, _ :: rest => rest
  | S m, x :: rest => x :: remove_nth m rest
  end.

(** What can happen to a mounted component: the user edits the text
    field, the user submits the form, a request in flight settles. *)
Inductive Event : Type :=
| Typed (text : string)
| Submit
| Settle (i : nat) (o : AxiosOutcome).

Definition step (r : Runtime) (ev : Event) : Runtime :=
  match ev with
  | Typed text => commit (with_hooks (setInputCity text) r)
  | Submit => commit (with_hooks handleSubmit r)
  | Settle i o =>
      match nth_error (in_flight r) i with
      | Some (_, k) =>
          commit (exec (k o)
                    {| hooks := hooks r;
                       last_deps := last_deps r;
                       in_flight := remove_nth i (in_flight r);
                       calls := calls r |})
      | None => r
      end
  end.

(** First render and first commit. *)
Definition mount : Runtime :=
  commit {| hooks := initial_state;
            last_deps := None;
            in_flight := [];
            calls := [] |}.

Definition run (evs : list Event) : Runtime := fold_left step evs mount.

(** *** The data model of the specification *)

(** ErrorState: absent, or a message.  CurrentConditions: absent, or a
    record.  ForecastSeries: a sequence of entries, possibly empty. *)
Definition ErrorState_set (st : State) : Prop :=
  nullish (error st) = false.

Definition CurrentConditions_set (st : State) : Prop :=
  nullish (currentWeatherData st) = false.

Definition ForecastSeries_populated (st : State) : Prop :=
  exists d days, forecastData st = JArr (d :: days).

Definition ErrorState_typed (st : State) : Prop :=
  error st = JNull \/ exists s, s <> "" /\ error st = JStr s.

(** CurrentConditions: absent, or a record that has its condition
    descriptor. *)
Definition CurrentConditions_typed (st : State) : Prop :=
  currentWeatherData st = JNull
  \/ exists fields,
       currentWeatherData st = JObj fields
       /\ nullish (lookup "condition" fields) = false.

(** The display is cleared: nothing of an earlier result is left. *)
Definition weather_cleared (st : State) : Prop :=
  currentWeatherData st = JNull /\ forecastData st = JArr [].

(** At most one of the two results is on display. *)
Definition one_result (st : State) : Prop :=
  (ErrorState_set st -> weather_cleared st)
  /\ (CurrentConditions_set st \/ ForecastSeries_populated st ->
      error st = JNull).

(** *** The precedence of error messages, in the specification's words *)

Definition own (name : string) (v : JsVal) : JsVal :=
  match v with
  | JObj fields => lookup name fields
  | _ => JUndefined
  end.

(** The message of a structured API error: the error object has a
    response, the response a body, the body an [error] object, and that
    object a message that is not empty. *)
Definition structured_message (err : JsVal) : option JsVal :=
  match own "response" err with
  | JObj response =>
      match lookup "data" response with
      | JObj body =>
          match lookup "error" body with
          | JObj api_error =>
              if truthy (lookup "message" api_error)
              then Some (lookup "message" api_error)
              else None
          | _ => None
          end
      | _ => None
      end
  | _ => None
  end.

(** The message of the error object itself, when it is not empty: what
    axios and the engine put there for a transport failure. *)
Definition transport_message (err : JsVal) : option JsVal :=
  if truthy (own "message" err) then Some (own "message" err) else None.

(** Structured API error first, transport message second, the fixed
    fallback last. *)
Definition message_by_precedence (err : JsVal) : JsVal :=
  match structured_message err with
  | Some m => m
  | None =>
      match transport_message err with
      | Some m => m
      | None => JStr unknown_error_message
      end
  end.

(** *** Forecast entries, in the specification's words *)

(** An entry of the series: an object with a [day] object. *)
Definition entry_ok (d : JsVal) : bool :=
  negb (nullish d) && negb (nullish (own "day" d)).

(** The temperature [name] of an entry, as it came. *)
Definition temperature (name : string) (d : JsVal) : JsVal :=
  own name (own "day" d).

(** ForecastSeries: a sequence of daily entries, possibly empty. *)
Definition ForecastSeries_typed (st : State) : Prop :=
  exists days, forecastData st = JArr days /\ forallb entry_ok days = true.

(** A guarded region of the returned tree is displayed. *)
Definition shown {A : Type} (o : option A) : Prop := o <> None.

(** A program with no suspension point. *)
Fixpoint synchronous (p : Act unit) : Prop :=
  match p with
  | Pure _ | Raise _ => True
  | SetError _ k | SetCurrentWeatherData _ k | SetForecastData _ k =>
      synchronous k
  | AxiosGet _ _ => False
  end.

(** The effect has run for the city on display. *)
Definition committed (r : Runtime) : Prop :=
  last_deps r = Some (city (hooks r), API_KEY).

(** The three states are cleared before anything else happens. *)
Definition cleared_first (tr : list Effect) : Prop :=
  exists rest,
    tr = ESetError JNull :: ESetCurrentWeatherData JNull
           :: ESetForecastData (JArr []) :: rest.

(** The value of the [&&] chain of line 68 on a response [r]. *)
Definition and_chain_value (r : JsVal) : JsVal :=
  let d := own "data" r in
  let e := own "error" d in
  if truthy r
  then if truthy d
       then if truthy e then own "message" e else e
       else d
  else r.

(** What a settled request leads to: the rest of the [try] block under
    its handler, or the handler on the rejection. *)
Definition settled (o : AxiosOutcome) : Act unit :=
  match o with
  | Fulfilled response => try_catch (try_block response) catch_block
  | Rejected err => catch_block err
  end.

(** Closes a case on a value that is no object. *)
Ltac primitive_case :=
  solve [ reflexivity
        | match goal with
          | b : bool |- _ => destruct b; reflexivity
          | |- context [negb ?c] =>
              let E := fresh "E" in
              destruct (negb c) eqn:E; simpl; rewrite ?E; reflexivity
          end ].

(** A parked continuation is the rest of a call of [fetchWeatherData]. *)
Definition awaits_settled (entry : string * (AxiosOutcome -> Act unit))
  : Prop :=
  forall o, snd entry o = settled o.

(** *** The start of a call *)

(** The hook state when a call has run up to its suspension point: the
    three states cleared.  Without a credential the call is already over,
    with the configuration message set. *)
Definition started (st : State) : State :=
  if truthy (env_value API_KEY)
  then store_forecastData (JArr [])
         (store_currentWeatherData JNull (store_error JNull st))
  else store_error (JStr missing_key_message) st.

(** A request in flight asks for the forecast of one of the cities [cs]. *)
Definition requested_for (cs : list string)
    (entry : string * (AxiosOutcome -> Act unit)) : Prop :=
  exists c, In c cs /\ fst entry = forecast_url c.

Definition is_array (v : JsVal) : bool :=
  match v with
  | JArr _ => true
  | _ => false
  end.

(** *** The tooltip of the chart *)

(** How the engine spells a number in a text. *)
Variable number_text : Q -> string.

(** The text of a value inside a string concatenation or a template
    literal: a string as it is, an array as its elements joined by commas
    (with nothing for [null] and [undefined]), an object by the fixed text
    of [Object.prototype.toString]. *)
Fixpoint js_text (v : JsVal) : string :=
  match v with
  | JUndefined => "undefined"
  | JNull => "null"
  | JBool b => if b then "true" else "false"
  | JNum q => number_text q
  | JStr s => s
  | JArr items =>
      (fix join (l : list JsVal) : string :=
         match l with
         | [] => ""
         | x :: rest =>
             let text := if nullish x then "" else js_text x in
             match rest with
             | [] => text
             | _ :: _ => text ++ "," ++ join rest
             end
         end) items
  | JObj _ => "[object Object]"
  end.

(** [v !== null] *)
Definition strict_not_null (v : JsVal) : bool :=
  match v with
  | JNull => false
  | _ => true
  end.

(** The [label] callback of the tooltip (lines 157-166), on the context
    Chart.js hands to it: [context.dataset] is the series of the point,
    [context.parsed.y] its value. *)
Definition tooltip_label (context : JsVal) : Result JsVal :=
  (label <- js_or (dataset <- prop context "dataset" ;; prop dataset "label")
              (Ok (JStr "")) ;;
   let label :=
     if truthy label then JStr (js_text label ++ ": ") else label in
   y <- (parsed <- prop context "parsed" ;; prop parsed "y") ;;
   if strict_not_null y
   then (y <- (parsed <- prop context "parsed" ;; prop parsed "y") ;;
         Ok (JStr (js_text label ++ (js_text y ++ "°F"))))
   else Ok label)%result.

(** ** Properties of one call *)

Lemma fetch_without_key (c : string) :
  truthy (env_value API_KEY) = false ->
  fetchWeatherData c = setError (JStr missing_key_message).
Proof.
  intros Hkey. unfold fetchWeatherData. rewrite Hkey. reflexivity.
Qed.

(** C3.  Without a configured credential ([undefined] or the empty
    string) a call does one thing, whatever the city: it sets the error to
    the configuration message.  No request is issued. *)
Theorem missing_key_sets_error_without_request :
  truthy (env_value API_KEY) = false ->
  forall (net : string -> AxiosOutcome) (c : string) (st : State),
    trace net (fetchWeatherData c) = [ESetError (JStr missing_key_message)]
    /\ requests_of (trace net (fetchWeatherData c)) = []
    /\ error (fetch_alone net c st) = JStr missing_key_message.
Proof.
  intros Hkey net c st. unfold fetch_alone.
  rewrite (fetch_without_key c Hkey). simpl. auto.
Qed.

(** C1 (amended).  With a configured credential every call starts by
    clearing the error, the current conditions and the forecast, in that
    order, then issues its request; whatever the outcome brings is applied
    after that. *)
Theorem fetch_with_key_clears_first :
  truthy (env_value API_KEY) = true ->
  forall (net : string -> AxiosOutcome) (c : string),
    exists rest,
      trace net (fetchWeatherData c)
      = ESetError JNull :: ESetCurrentWeatherData JNull
          :: ESetForecastData (JArr []) :: ERequest (forecast_url c) :: rest.
Proof.
  intros Hkey net c. unfold fetchWeatherData. rewrite Hkey. simpl.
  eexists. reflexivity.
Qed.

Lemma prop_own (v : JsVal) (name : string) :
  nullish v = false -> prop v name = Ok (own name v).
Proof. destruct v; simpl; intros H; try discriminate; reflexivity. Qed.

Lemma truthy_not_nullish (v : JsVal) : truthy v = true -> nullish v = false.
Proof. destruct v; simpl; intros H; try discriminate; reflexivity. Qed.

Lemma structured_message_truthy (err m : JsVal) :
  structured_message err = Some m -> truthy m = true.
Proof.
  unfold structured_message.
  destruct (own "response" err) as [| | | | | |response]; try discriminate.
  destruct (lookup "data" response) as [| | | | | |body]; try discriminate.
  destruct (lookup "error" body) as [| | | | | |api_error]; try discriminate.
  destruct (truthy (lookup "message" api_error)) eqn:Hm; try discriminate.
  intros H. injection H as <-. exact Hm.
Qed.

Lemma transport_message_truthy (err m : JsVal) :
  transport_message err = Some m -> truthy m = true.
Proof.
  unfold transport_message.
  destruct (truthy (own "message" err)) eqn:Hm; try discriminate.
  intros H. injection H as <-. exact Hm.
Qed.

Lemma message_by_precedence_truthy (err : JsVal) :
  truthy (message_by_precedence err) = true.
Proof.
  unfold message_by_precedence.
  destruct (structured_message err) as [m|] eqn:Hs.
  - exact (structured_message_truthy err m Hs).
  - destruct (transport_message err) as [m|] eqn:Ht.
    + exact (transport_message_truthy err m Ht).
    + reflexivity.
Qed.

Lemma and_chain_structured (err : JsVal) :
  structured_message err
  = if truthy (and_chain_value (own "response" err))
    then Some (and_chain_value (own "response" err))
    else None.
Proof.
  unfold structured_message, and_chain_value.
  destruct (own "response" err) as [| |b|q|s|l|response]; simpl;
    try primitive_case.
  destruct (lookup "data" response) as [| |b|q|s|l|body]; simpl;
    try primitive_case.
  destruct (lookup "error" body) as [| |b|q|s|l|api_error]; simpl;
    try primitive_case.
Qed.

Lemma and_chain_code (err : JsVal) :
  nullish err = false ->
  js_and
    (js_and
       (js_and
          (prop err "response")
          (response <- prop err "response" ;;
           prop response "data")%result)
       (response <- prop err "response" ;;
        data <- prop response "data" ;;
        prop data "error")%result)
    (response <- prop err "response" ;;
     data <- prop response "data" ;;
     e <- prop data "error" ;;
     prop e "message")%result
  = Ok (and_chain_value (own "response" err)).
Proof.
  intros Herr. rewrite (prop_own err "response" Herr).
  unfold js_and, and_chain_value. cbn [rbind].
  destruct (truthy (own "response" err)) eqn:Hr; cbn [rbind].
  2: repeat (cbn [rbind]; rewrite ?Hr); reflexivity.
  rewrite (prop_own _ "data" (truthy_not_nullish _ Hr)). cbn [rbind].
  destruct (truthy (own "data" (own "response" err))) eqn:Hd; cbn [rbind].
  2: repeat (cbn [rbind]; rewrite ?Hd); reflexivity.
  rewrite (prop_own _ "error" (truthy_not_nullish _ Hd)). cbn [rbind].
  destruct (truthy (own "error" (own "data" (own "response" err)))) eqn:He;
    cbn [rbind].
  2: repeat (cbn [rbind]; rewrite ?He); reflexivity.
  rewrite (prop_own _ "message" (truthy_not_nullish _ He)).
  repeat (cbn [rbind]; rewrite ?Hr, ?Hd, ?He). reflexivity.
Qed.

(** The expression of lines 68-70 computes the precedence. *)
Lemma catch_message_precedence (err : JsVal) :
  nullish err = false ->
  catch_message err = Ok (message_by_precedence err).
Proof.
  intros Herr. unfold catch_message.
  rewrite (and_chain_code err Herr), (prop_own err "message" Herr).
  unfold message_by_precedence, transport_message.
  rewrite (and_chain_structured err). unfold js_or. cbn [rbind].
  destruct (truthy (and_chain_value (own "response" err))) eqn:Hs.
  - repeat (cbn [rbind]; rewrite ?Hs). reflexivity.
  - destruct (truthy (own "message" err)) eqn:Hm;
      repeat (cbn [rbind]; rewrite ?Hs, ?Hm); reflexivity.
Qed.

(** *** The shape of a call *)

Lemma fetch_with_key (c : string) :
  truthy (env_value API_KEY) = true ->
  fetchWeatherData c
  = SetError JNull
      (SetCurrentWeatherData JNull
         (SetForecastData (JArr [])
            (AxiosGet (forecast_url c)
               (fun o =>
                  try_catch
                    (bind match o with
                          | Fulfilled response => Pure response
                          | Rejected err => Raise err
                          end try_block)
                    catch_block)))).
Proof.
  intros Hkey. unfold fetchWeatherData. rewrite Hkey. reflexivity.
Qed.

Lemma resume_settled (o : AxiosOutcome) :
  try_catch
    (bind match o with
          | Fulfilled response => Pure response
          | Rejected err => Raise err
          end try_block)
    catch_block
  = settled o.
Proof. destruct o; reflexivity. Qed.

Lemma trace_with_key (net : string -> AxiosOutcome) (c : string) :
  truthy (env_value API_KEY) = true ->
  trace net (fetchWeatherData c)
  = ESetError JNull :: ESetCurrentWeatherData JNull
      :: ESetForecastData (JArr []) :: ERequest (forecast_url c)
      :: trace net (settled (net (forecast_url c))).
Proof.
  intros Hkey. rewrite (fetch_with_key c Hkey). cbn [trace].
  rewrite resume_settled. reflexivity.
Qed.

Lemma catch_block_object (err : JsVal) :
  nullish err = false ->
  catch_block err
  = SetError (message_by_precedence err)
      (SetCurrentWeatherData JNull (SetForecastData (JArr []) (Pure tt))).
Proof.
  intros Herr. unfold catch_block.
  rewrite (catch_message_precedence err Herr). reflexivity.
Qed.

Lemma catch_block_nullish (err : JsVal) :
  nullish err = true ->
  catch_block err = Raise (TypeError err "response").
Proof. destruct err; simpl; intros H; try discriminate; reflexivity. Qed.

(** C2.  When the request is rejected with an error object, the error
    state becomes: the message of the structured API error when the error
    carries one; otherwise the error's own (transport) message when it has
    one; otherwise the fixed fallback text.  The expression in the [catch]
    block computes exactly this choice. *)
Theorem error_message_precedence :
  truthy (env_value API_KEY) = true ->
  forall (net : string -> AxiosOutcome) (c : string) (st : State)
         (err : JsVal),
    net (forecast_url c) = Rejected err ->
    nullish err = false ->
    catch_message err = Ok (message_by_precedence err)
    /\ error (fetch_alone net c st) = message_by_precedence err
    /\ (forall m, structured_message err = Some m ->
                  error (fetch_alone net c st) = m)
    /\ (forall m, structured_message err = None ->
                  transport_message err = Some m ->
                  error (fetch_alone net c st) = m)
    /\ (structured_message err = None ->
        transport_message err = None ->
        error (fetch_alone net c st) = JStr unknown_error_message).
Proof.
  intros Hkey net c st err Hnet Herr.
  assert (Hst : error (fetch_alone net c st) = message_by_precedence err).
  { unfold fetch_alone. rewrite (trace_with_key net c Hkey), Hnet.
    cbn [settled]. rewrite (catch_block_object err Herr). reflexivity. }
  split; [exact (catch_message_precedence err Herr)|].
  split; [exact Hst|].
  rewrite Hst. unfold message_by_precedence.
  repeat split.
  - intros m Hs. rewrite Hs. reflexivity.
  - intros m Hs Ht. rewrite Hs, Ht. reflexivity.
  - intros Hs Ht. rewrite Hs, Ht. reflexivity.
Qed.

(** The rejection with the API's "no match" body, for a call that runs
    alone from any state. *)
Lemma no_match_error_alone :
  truthy (env_value API_KEY) = true ->
  forall (net : string -> AxiosOutcome) (c : string) (st : State)
         (err : JsVal) (response body api_error : list (string * JsVal)),
    net (forecast_url c) = Rejected err ->
    own "response" err = JObj response ->
    lookup "data" response = JObj body ->
    lookup "error" body = JObj api_error ->
    lookup "message" api_error = JStr "No matching location found." ->
    error (fetch_alone net c st) = JStr "No matching location found."
    /\ currentWeatherData (fetch_alone net c st) = JNull
    /\ forecastData (fetch_alone net c st) = JArr [].
Proof.
  intros Hkey net c st err response body api_error Hnet Hr Hd He Hm.
  assert (Herr : nullish err = false).
  { destruct err; simpl in Hr; try discriminate; reflexivity. }
  assert (Hs : message_by_precedence err
               = JStr "No matching location found.").
  { unfold message_by_precedence, structured_message.
    rewrite Hr, Hd, He, Hm. reflexivity. }
  unfold fetch_alone. rewrite (trace_with_key net c Hkey), Hnet.
  cbn [settled]. rewrite (catch_block_object err Herr), Hs.
  repeat split.
Qed.

Lemma type_error_message_shown (v : JsVal) (name : string) :
  type_error_message v name <> "" ->
  message_by_precedence (TypeError v name)
  = JStr (type_error_message v name).
Proof.
  intros Hne. unfold message_by_precedence, structured_message,
    transport_message, TypeError. simpl.
  destruct (String.eqb_spec (type_error_message v name) "") as [E|E].
  - contradiction.
  - reflexivity.
Qed.

(** C10 (amended).  When the request is fulfilled with a body that has no
    [forecast] (so that reading [data.forecast.forecastday] throws), the
    current conditions are first set from [data.current], then the
    [catch] block takes over: the error state becomes the message of the
    thrown [TypeError], the current conditions become absent again and the
    forecast is empty. *)
Theorem missing_forecast_is_caught :
  truthy (env_value API_KEY) = true ->
  forall (net : string -> AxiosOutcome) (c : string) (st : State)
         (response body current forecast : JsVal),
    net (forecast_url c) = Fulfilled response ->
    prop response "data" = Ok body ->
    prop body "current" = Ok current ->
    prop body "forecast" = Ok forecast ->
    nullish forecast = true ->
    type_error_message forecast "forecastday" <> "" ->
    trace net (fetchWeatherData c)
    = [ ESetError JNull; ESetCurrentWeatherData JNull;
        ESetForecastData (JArr []); ERequest (forecast_url c);
        ESetCurrentWeatherData current;
        ESetError (JStr (type_error_message forecast "forecastday"));
        ESetCurrentWeatherData JNull; ESetForecastData (JArr []) ]
    /\ error (fetch_alone net c st)
       = JStr (type_error_message forecast "forecastday")
    /\ currentWeatherData (fetch_alone net c st) = JNull
    /\ forecastData (fetch_alone net c st) = JArr [].
Proof.
  intros Hkey net c st response body current forecast
    Hnet Hbody Hcur Hfc Hnull Hmsg.
  assert (Hthrow : prop forecast "forecastday"
                   = Throw (TypeError forecast "forecastday")).
  { destruct forecast; simpl in Hnull; try discriminate; reflexivity. }
  assert (Htr : trace net (settled (net (forecast_url c)))
                = [ ESetCurrentWeatherData current;
                    ESetError (JStr (type_error_message forecast
                                       "forecastday"));
                    ESetCurrentWeatherData JNull;
                    ESetForecastData (JArr []) ]).
  { rewrite Hnet. unfold settled, try_block.
    rewrite Hbody. cbn [lift bind]. rewrite Hcur. cbn [lift bind].
    rewrite Hfc. cbn [rbind]. rewrite Hthrow.
    cbn [lift bind setCurrentWeatherData try_catch].
    rewrite (catch_block_object (TypeError forecast "forecastday")
               eq_refl).
    rewrite (type_error_message_shown _ _ Hmsg). reflexivity. }
  unfold fetch_alone. rewrite (trace_with_key net c Hkey), Htr.
  repeat split.
Qed.

(** *** The chart *)

Lemma rmap_total {A B} (f : A -> Result B) (g : A -> B) (l : list A) :
  (forall x, In x l -> f x = Ok (g x)) ->
  rmap f l = Ok (map g l).
Proof.
  induction l as [|x rest IH]; intros Hf.
  - reflexivity.
  - cbn [rmap map]. rewrite (Hf x (or_introl eq_refl)). cbn [rbind].
    rewrite IH.
    + reflexivity.
    + intros y Hy. apply Hf. right. exact Hy.
Qed.

Lemma entry_date (d : JsVal) :
  entry_ok d = true -> prop d "date" = Ok (own "date" d).
Proof.
  unfold entry_ok. intros H. apply andb_prop in H. destruct H as [H _].
  apply prop_own. destruct (nullish d); [discriminate|reflexivity].
Qed.

Lemma entry_temperature (name : string) (d : JsVal) :
  entry_ok d = true -> day_field name d = Ok (temperature name d).
Proof.
  unfold entry_ok, day_field, temperature. intros H.
  apply andb_prop in H. destruct H as [Hd Hday].
  rewrite (prop_own d "day").
  - cbn [rbind]. apply prop_own.
    destruct (nullish (own "day" d)); [discriminate|reflexivity].
  - destruct (nullish d); [discriminate|reflexivity].
Qed.

Lemma chartData_of_entries (days : list JsVal) :
  forallb entry_ok days = true ->
  chartData (JArr days)
  = Ok {| labels := map (own "date") days;
          datasets :=
            [ line_series "Avg. Temperature (°F)"
                (map (temperature "avgtemp_f") days)
                "rgb(75, 192, 192)" "rgba(75, 192, 192, 0.5)";
              line_series "Max Temperature (°F)"
                (map (temperature "maxtemp_f") days)
                "rgb(255, 99, 132)" "rgba(255, 99, 132, 0.5)";
              line_series "Min Temperature (°F)"
                (map (temperature "mintemp_f") days)
                "rgb(54, 162, 235)" "rgba(54, 162, 235, 0.5)" ] |}.
Proof.
  intros Hok. rewrite forallb_forall in Hok.
  unfold chartData, array_map.
  rewrite (rmap_total _ (own "date") days
             (fun d Hd => entry_date d (Hok d Hd))).
  cbn [rbind].
  rewrite !(fun name => rmap_total _ (temperature name) days
              (fun d Hd => entry_temperature name d (Hok d Hd))).
  reflexivity.
Qed.

Lemma fetch_success (net : string -> AxiosOutcome) (c : string) (st : State)
    (response body forecast : list (string * JsVal)) :
  truthy (env_value API_KEY) = true ->
  net (forecast_url c) = Fulfilled (JObj response) ->
  lookup "data" response = JObj body ->
  lookup "forecast" body = JObj forecast ->
  fetch_alone net c st
  = {| city := city st;
       inputCity := inputCity st;
       currentWeatherData := lookup "current" body;
       forecastData := lookup "forecastday" forecast;
       error := JNull |}.
Proof.
  intros Hkey Hnet Hbody Hfc.
  unfold fetch_alone. rewrite (trace_with_key net c Hkey), Hnet.
  unfold settled, try_block. cbn [prop]. rewrite Hbody.
  cbn [lift bind prop]. rewrite Hfc. reflexivity.
Qed.

(** C6.  After a successful fetch whose [forecast.forecastday] holds [n]
    entries (each an object with a [day] object), the chart data has the
    [n] dates as labels, in the order of the series, and three series, each
    with the [n] average, maximum and minimum temperatures of the entries,
    in that order and as they came.  This holds for every [n], so for
    [0 <= n <= 7] too. *)
Theorem chart_projection_of_fetched_forecast :
  truthy (env_value API_KEY) = true ->
  forall (net : string -> AxiosOutcome) (c : string) (st : State)
         (response body forecast : list (string * JsVal))
         (days : list JsVal) (n : nat),
    net (forecast_url c) = Fulfilled (JObj response) ->
    lookup "data" response = JObj body ->
    lookup "forecast" body = JObj forecast ->
    lookup "forecastday" forecast = JArr days ->
    forallb entry_ok days = true ->
    List.length days = n ->
    exists avg max min,
      chartData (forecastData (fetch_alone net c st))
      = Ok {| labels := map (own "date") days;
              datasets := [avg; max; min] |}
      /\ data avg = map (temperature "avgtemp_f") days
      /\ data max = map (temperature "maxtemp_f") days
      /\ data min = map (temperature "mintemp_f") days
      /\ List.length (map (own "date") days) = n
      /\ List.length (data avg) = n
      /\ List.length (data max) = n
      /\ List.length (data min) = n.
Proof.
  intros Hkey net c st response body forecast days n
    Hnet Hbody Hfc Hdays Hok Hlen.
  rewrite (fetch_success net c st response body forecast Hkey Hnet Hbody Hfc).
  cbn [forecastData]. rewrite Hdays, (chartData_of_entries days Hok).
  do 3 eexists. split; [reflexivity|].
  cbn [data line_series]. rewrite !length_map. auto 10.
Qed.

(** *** The guards of the returned tree *)

(** The guards as the code tests them: by truthiness and by length. *)
Lemma render_tests (st : State) (view : View) :
  render st = Ok view ->
  (shown (banner view) <-> truthy (error st) = true)
  /\ (shown (card view) <-> truthy (currentWeatherData st) = true)
  /\ (shown (chart view) <-> ForecastSeries_populated st).
Proof.
  unfold render, shown, ForecastSeries_populated. intros H.
  destruct (chartData (forecastData st)) as [cd|e] eqn:Hcd;
    cbn [rbind] in H; [|discriminate].
  destruct (truthy (currentWeatherData st)) eqn:Hc.
  - destruct (weather_card (city st) (currentWeatherData st)) as [w|e];
      cbn [rbind] in H; [|discriminate].
    destruct (forecastData st) as [| | | | |items|] eqn:Hf;
      try discriminate.
    injection H as <-. cbn [banner card chart].
    split; [|split].
    + destruct (truthy (error st)); split; congruence.
    + split; congruence.
    + destruct items as [|d days]; cbn.
      * split; [congruence|]. intros (d & days & E). discriminate.
      * split; [|congruence]. intros _. exists d, days. reflexivity.
  - cbn [rbind] in H.
    destruct (forecastData st) as [| | | | |items|] eqn:Hf;
      try discriminate.
    injection H as <-. cbn [banner card chart].
    split; [|split].
    + destruct (truthy (error st)); split; congruence.
    + split; congruence.
    + destruct items as [|d days]; cbn.
      * split; [congruence|]. intros (d & days & E). discriminate.
      * split; [|congruence]. intros _. exists d, days. reflexivity.
Qed.

Lemma weather_card_returns (c : string) (fields : list (string * JsVal)) :
  nullish (lookup "condition" fields) = false ->
  exists w, weather_card c (JObj fields) = Ok w.
Proof.
  intros Hcond. unfold weather_card. cbn [prop rbind].
  rewrite !(prop_own (lookup "condition" fields) _ Hcond). cbn [rbind].
  eexists. reflexivity.
Qed.

(** A state as the data model has it renders. *)
Lemma typed_state_renders (st : State) :
  CurrentConditions_typed st ->
  ForecastSeries_typed st ->
  exists view, render st = Ok view.
Proof.
  intros Hcur (days & Ef & Hok). unfold render.
  rewrite Ef, (chartData_of_entries days Hok). cbn [rbind].
  destruct Hcur as [E|(fields & E & Hcond)]; rewrite E.
  - cbn [truthy rbind]. eexists. reflexivity.
  - cbn [truthy]. destruct (weather_card_returns (city st) fields Hcond)
      as (w & Ew).
    rewrite Ew. cbn [rbind]. eexists. reflexivity.
Qed.

(** C8.  Every state that is as the data model has it (the error state
    absent or a message; the current conditions absent or a record with its
    condition; the forecast a sequence of daily entries) renders, and in
    what is rendered the three regions are guarded each on its own: the
    banner is there exactly when the error state is set, the card exactly
    when the current conditions are set, the chart exactly when the
    forecast has at least one entry. *)
Theorem render_guards :
  forall st : State,
    ErrorState_typed st ->
    CurrentConditions_typed st ->
    ForecastSeries_typed st ->
    exists view,
      render st = Ok view
      /\ (shown (banner view) <-> ErrorState_set st)
      /\ (shown (card view) <-> CurrentConditions_set st)
      /\ (shown (chart view) <-> ForecastSeries_populated st).
Proof.
  intros st Herr Hcur Hfc.
  destruct (typed_state_renders st Hcur Hfc) as (view & Hrender).
  exists view. split; [exact Hrender|].
  destruct (render_tests st view Hrender) as (Hb & Hc & Hf).
  split; [|split].
  - rewrite Hb. unfold ErrorState_set.
    destruct Herr as [E|(s & Hs & E)]; rewrite E; cbn.
    + split; discriminate.
    + destruct (String.eqb_spec s "") as [E'|E']; [contradiction|].
      split; reflexivity.
  - rewrite Hc. unfold CurrentConditions_set.
    destruct Hcur as [E|(fields & E & _)]; rewrite E; cbn.
    + split; discriminate.
    + split; reflexivity.
  - exact Hf.
Qed.

(** ** The component at run time *)

Lemma exec_bookkeeping (p : Act unit) (r : Runtime) :
  city (hooks (exec p r)) = city (hooks r)
  /\ inputCity (hooks (exec p r)) = inputCity (hooks r)
  /\ last_deps (exec p r) = last_deps r
  /\ calls (exec p r) = calls r.
Proof.
  revert r. induction p as [a|e|v k IH|v k IH|v k IH|url k IH]; intros r;
    cbn [exec]; try (repeat split; reflexivity).
  - destruct (IH (with_hooks (store_error v) r)) as (H1 & H2 & H3 & H4).
    rewrite H1, H2, H3, H4. repeat split.
  - destruct (IH (with_hooks (store_currentWeatherData v) r))
      as (H1 & H2 & H3 & H4).
    rewrite H1, H2, H3, H4. repeat split.
  - destruct (IH (with_hooks (store_forecastData v) r))
      as (H1 & H2 & H3 & H4).
    rewrite H1, H2, H3, H4. repeat split.
Qed.

Lemma env_eqb_eq (a b : option string) : env_eqb a b = true -> a = b.
Proof.
  destruct a as [x|], b as [y|]; cbn; intros H; try discriminate.
  - apply String.eqb_eq in H. congruence.
  - reflexivity.
Qed.

Lemma deps_eqb_eq (a b : string * option string) :
  deps_eqb a b = true -> a = b.
Proof.
  destruct a as [c k], b as [c' k']. unfold deps_eqb. cbn [fst snd].
  intros H. apply andb_prop in H. destruct H as [Hc Hk].
  apply String.eqb_eq in Hc. apply env_eqb_eq in Hk. congruence.
Qed.

Lemma deps_eqb_refl (a : string * option string) : deps_eqb a a = true.
Proof.
  destruct a as [c k]. unfold deps_eqb. cbn [fst snd].
  rewrite String.eqb_refl. destruct k as [x|]; cbn.
  - apply String.eqb_refl.
  - reflexivity.
Qed.

Lemma commit_committed (r : Runtime) : committed (commit r).
Proof.
  unfold committed, commit.
  destruct (last_deps r) as [old|] eqn:Hold.
  - destruct (deps_eqb old (city (hooks r), API_KEY)) eqn:E; cbn [negb].
    + apply deps_eqb_eq in E. rewrite Hold, E. reflexivity.
    + match goal with
      | |- context [exec ?p ?r0] =>
          destruct (exec_bookkeeping p r0) as (H1 & _ & H3 & _)
      end.
      rewrite H1, H3. reflexivity.
  - match goal with
    | |- context [exec ?p ?r0] =>
        destruct (exec_bookkeeping p r0) as (H1 & _ & H3 & _)
    end.
    rewrite H1, H3. reflexivity.
Qed.

Lemma run_snoc (evs : list Event) (ev : Event) :
  run (evs ++ [ev]) = step (run evs) ev.
Proof. unfold run. rewrite fold_left_app. reflexivity. Qed.

Lemma commit_unchanged (r : Runtime) : committed r -> commit r = r.
Proof.
  unfold committed, commit. intros H. rewrite H, deps_eqb_refl. reflexivity.
Qed.

Lemma run_committed (evs : list Event) : committed (run evs).
Proof.
  induction evs as [|ev evs IH] using rev_ind.
  - apply commit_committed.
  - rewrite run_snoc. destruct ev as [text| |i o]; cbn [step].
    + apply commit_committed.
    + apply commit_committed.
    + destruct (nth_error (in_flight (run evs)) i) as [[url k]|].
      * apply commit_committed.
      * exact IH.
Qed.

(** Submitting the text that is already the city re-runs nothing. *)
Lemma submit_same_city (evs : list Event) :
  inputCity (hooks (run evs)) = city (hooks (run evs)) ->
  calls (step (run evs) Submit) = calls (run evs).
Proof.
  intros Hsame. cbn [step].
  rewrite commit_unchanged; [reflexivity|].
  pose proof (run_committed evs) as Hc. unfold committed in *.
  unfold with_hooks, handleSubmit, setCity. cbn. rewrite Hsame. exact Hc.
Qed.

(** C7 (amended).  In a mounted component, submitting the form while the
    text field holds a city [c] other than the selected one makes [c] the
    selected city and calls [fetchWeatherData] once, with [c]. *)
Theorem submit_new_city_fetches_once :
  forall (evs : list Event) (c : string),
    inputCity (hooks (run evs)) = c ->
    c <> city (hooks (run evs)) ->
    city (hooks (step (run evs) Submit)) = c
    /\ calls (step (run evs) Submit) = (calls (run evs) ++ [c])%list.
Proof.
  intros evs c Hdraft Hnew. cbn [step].
  pose proof (run_committed evs) as Hc. unfold committed in Hc.
  unfold commit. cbn [with_hooks last_deps hooks handleSubmit]. rewrite Hc.
  assert (E : deps_eqb (city (hooks (run evs)), API_KEY)
                (city (handleSubmit (hooks (run evs))), API_KEY) = false).
  { destruct (deps_eqb _ _) eqn:E; [|reflexivity].
    apply deps_eqb_eq in E. cbn in E. injection E as E. congruence. }
  rewrite E. cbn [negb].
  match goal with
  | |- context [exec ?p ?r0] =>
      destruct (exec_bookkeeping p r0) as (H1 & _ & _ & H4)
  end.
  rewrite H1, H4. cbn. rewrite Hdraft. split; reflexivity.
Qed.

(** *** One result at a time *)

Lemma prop_cases (v : JsVal) (name : string) :
  (nullish v = true /\ prop v name = Throw (TypeError v name))
  \/ (nullish v = false /\ prop v name = Ok (own name v)).
Proof. destruct v; cbn; auto. Qed.

(** The three ways the [try] block can go once the response is there: it
    throws before any setter, it throws between the two setters, or it
    runs through.  What it throws is a [TypeError] object. *)
Lemma try_block_cases (response : JsVal) :
  (exists e, nullish e = false
             /\ try_catch (try_block response) catch_block = catch_block e)
  \/ (exists current e,
        nullish e = false
        /\ try_catch (try_block response) catch_block
           = SetCurrentWeatherData current (catch_block e))
  \/ (exists current forecastday,
        try_catch (try_block response) catch_block
        = SetCurrentWeatherData current
            (SetForecastData forecastday (Pure tt))).
Proof.
  unfold try_block.
  destruct (prop_cases response "data") as [[_ E]|[_ E]]; rewrite E;
    cbn [lift bind try_catch].
  { left. eexists. split; [|reflexivity]. reflexivity. }
  destruct (prop_cases (own "data" response) "current") as [[N E1]|[N E1]];
    rewrite E1; cbn [lift bind try_catch].
  { left. eexists. split; [|reflexivity]. reflexivity. }
  rewrite (prop_own _ "forecast" N). cbn [rbind].
  destruct (prop_cases (own "forecast" (own "data" response)) "forecastday")
    as [[_ E2]|[_ E2]]; rewrite E2;
    cbn [lift bind try_catch setCurrentWeatherData setForecastData].
  - right. left. do 2 eexists. split; [|reflexivity]. reflexivity.
  - right. right. do 2 eexists. reflexivity.
Qed.

Lemma catch_block_synchronous (err : JsVal) : synchronous (catch_block err).
Proof.
  destruct (nullish err) eqn:N.
  - rewrite (catch_block_nullish err N). exact I.
  - rewrite (catch_block_object err N). exact I.
Qed.

Lemma settled_synchronous (o : AxiosOutcome) : synchronous (settled o).
Proof.
  destruct o as [response|err]; cbn [settled].
  - destruct (try_block_cases response)
      as [(e & _ & E)|[(cur & e & _ & E)|(cur & fd & E)]]; rewrite E;
      cbn [synchronous]; try apply catch_block_synchronous; exact I.
  - apply catch_block_synchronous.
Qed.

Lemma after_catch_block (net : string -> AxiosOutcome) (err : JsVal)
    (st : State) :
  nullish err = false ->
  one_result (fold_left apply_effect (trace net (catch_block err)) st).
Proof.
  intros N. rewrite (catch_block_object err N). cbn.
  unfold one_result, weather_cleared, ErrorState_set, CurrentConditions_set,
    ForecastSeries_populated. cbn.
  split.
  - intros _. split; reflexivity.
  - intros [H|(d & days & H)]; discriminate.
Qed.

Lemma one_result_without_error (st : State) :
  error st = JNull -> one_result st.
Proof.
  intros E. unfold one_result, ErrorState_set. rewrite E. cbn.
  split; [discriminate|reflexivity].
Qed.

Lemma after_settled (net : string -> AxiosOutcome) (o : AxiosOutcome)
    (st : State) :
  error st = JNull ->
  weather_cleared st ->
  one_result (fold_left apply_effect (trace net (settled o)) st).
Proof.
  intros Herr Hclear. destruct o as [response|err]; cbn [settled].
  - destruct (try_block_cases response)
      as [(e & N & E)|[(cur & e & N & E)|(cur & fd & E)]]; rewrite E.
    + apply after_catch_block. exact N.
    + cbn [trace fold_left]. apply after_catch_block. exact N.
    + cbn. apply one_result_without_error. exact Herr.
  - destruct (nullish err) eqn:N.
    + rewrite (catch_block_nullish err N). cbn.
      apply one_result_without_error. exact Herr.
    + apply after_catch_block. exact N.
Qed.

Lemma fetch_alone_with_key_one_result (net : string -> AxiosOutcome)
    (c : string) (st : State) :
  truthy (env_value API_KEY) = true ->
  one_result (fetch_alone net c st).
Proof.
  intros Hkey. unfold fetch_alone. rewrite (trace_with_key net c Hkey).
  cbn [fold_left apply_effect]. apply after_settled.
  - reflexivity.
  - split; reflexivity.
Qed.

(** Without a credential nothing is ever requested, so nothing is ever
    put on display but the configuration message. *)
Lemma run_without_key (evs : list Event) :
  truthy (env_value API_KEY) = false ->
  in_flight (run evs) = [] /\ weather_cleared (hooks (run evs)).
Proof.
  intros Hkey.
  assert (Hcommit : forall r,
             in_flight r = [] -> weather_cleared (hooks r) ->
             in_flight (commit r) = [] /\ weather_cleared (hooks (commit r))).
  { intros r Hf Hw. unfold commit.
    destruct (match last_deps r with
              | Some old => negb (deps_eqb old (city (hooks r), API_KEY))
              | None => true
              end).
    - rewrite (fetch_without_key _ Hkey). cbn. split; assumption.
    - split; assumption. }
  induction evs as [|ev evs IH] using rev_ind.
  - apply Hcommit; [reflexivity|split; reflexivity].
  - rewrite run_snoc. destruct IH as [Hf Hw].
    destruct ev as [text| |i o]; cbn [step].
    + apply Hcommit; assumption.
    + apply Hcommit; assumption.
    + rewrite Hf. destruct i; cbn; split; assumption.
Qed.

(** C4 (amended).  From any state the mounted component can be in, a
    fetch attempt that runs from its start to its completion with no other
    attempt settling in between leaves at most one result on display:
    when the error state is set, the current conditions are absent and the
    forecast is empty, and when the current conditions or the forecast are
    populated, the error state is absent.  This holds for every outcome:
    no credential, a rejected request, a fulfilled one. *)
Theorem one_result_after_fetch :
  forall (evs : list Event) (net : string -> AxiosOutcome) (c : string),
    one_result (fetch_alone net c (hooks (run evs))).
Proof.
  intros evs net c. destruct (truthy (env_value API_KEY)) eqn:Hkey.
  - apply fetch_alone_with_key_one_result. exact Hkey.
  - destruct (run_without_key evs Hkey) as [_ [Hcur Hfc]].
    unfold fetch_alone. rewrite (fetch_without_key c Hkey). cbn.
    unfold one_result, weather_cleared, ErrorState_set,
      CurrentConditions_set, ForecastSeries_populated. cbn.
    rewrite Hcur, Hfc. split.
    + intros _. split; reflexivity.
    + intros [H|(d & days & H)]; discriminate.
Qed.

(** *** A call that is alone, at run time *)

Lemma exec_synchronous (net : string -> AxiosOutcome) (p : Act unit)
    (r : Runtime) :
  synchronous p ->
  hooks (exec p r) = fold_left apply_effect (trace net p) (hooks r)
  /\ in_flight (exec p r) = in_flight r.
Proof.
  revert r. induction p as [a|e|v k IH|v k IH|v k IH|url k IH]; intros r Hs;
    cbn [exec trace fold_left apply_effect]; try (split; reflexivity).
  - apply (IH (with_hooks (store_error v) r) Hs).
  - apply (IH (with_hooks (store_currentWeatherData v) r) Hs).
  - apply (IH (with_hooks (store_forecastData v) r) Hs).
  - destruct Hs.
Qed.

Lemma nth_error_last {A} (l : list A) (x : A) :
  nth_error (l ++ [x]) (List.length l) = Some x.
Proof. induction l as [|y l IH]; [reflexivity|exact IH]. Qed.

(** Starting a call and settling its request at once, as two steps of the
    component, gives the state [fetch_alone] computes. *)
Lemma fetch_settled_at_once (r : Runtime) (c : string) (o : AxiosOutcome) :
  truthy (env_value API_KEY) = true ->
  committed r ->
  hooks (step (exec (fetchWeatherData c) r)
           (Settle (List.length (in_flight r)) o))
  = fetch_alone (fun _ => o) c (hooks r).
Proof.
  intros Hkey Hc. unfold fetch_alone.
  rewrite (trace_with_key _ c Hkey), (fetch_with_key c Hkey).
  cbn [exec step in_flight]. rewrite nth_error_last, resume_settled.
  match goal with
  | |- hooks (commit (exec ?p ?r0)) = _ =>
      destruct (exec_synchronous (fun _ => o) p r0 (settled_synchronous o))
        as [Hh _];
      destruct (exec_bookkeeping p r0) as (H1 & _ & H3 & _);
      rewrite (commit_unchanged (exec p r0)); [rewrite Hh; reflexivity|]
  end.
  unfold committed in *. rewrite H1, H3. cbn. exact Hc.
Qed.

(** *** The request *)

Lemma synchronous_no_request (net : string -> AxiosOutcome) (p : Act unit) :
  synchronous p -> requests_of (trace net p) = [].
Proof.
  induction p as [a|e|v k IH|v k IH|v k IH|url k IH]; cbn; intros Hs;
    try reflexivity; try (apply IH; exact Hs).
  destruct Hs.
Qed.

(** With a credential a call issues one request, for the URL of line 53:
    the forecast endpoint, [days=7], and the city put into the query text
    as it is. *)
Lemma single_request (net : string -> AxiosOutcome) (c : string) :
  truthy (env_value API_KEY) = true ->
  requests_of (trace net (fetchWeatherData c))
  = [ "https://api.weatherapi.com/v1/forecast.json?key=" ++ env_text API_KEY
        ++ "&q=" ++ c ++ "&days=7" ].
Proof.
  intros Hkey. rewrite (trace_with_key net c Hkey). cbn.
  rewrite (synchronous_no_request net _ (settled_synchronous _)).
  reflexivity.
Qed.

(** *** Requests in flight *)

Lemma exec_fetch_in_flight (r : Runtime) (c : string) :
  Forall awaits_settled (in_flight r) ->
  Forall awaits_settled (in_flight (exec (fetchWeatherData c) r)).
Proof.
  intros Hr. destruct (truthy (env_value API_KEY)) eqn:Hkey.
  - rewrite (fetch_with_key c Hkey). cbn [exec in_flight with_hooks].
    apply Forall_app. split; [exact Hr|].
    constructor; [|constructor].
    intros o. cbn [snd]. apply resume_settled.
  - rewrite (fetch_without_key c Hkey). exact Hr.
Qed.

Lemma commit_in_flight (r : Runtime) :
  Forall awaits_settled (in_flight r) ->
  Forall awaits_settled (in_flight (commit r)).
Proof.
  intros Hr. unfold commit.
  destruct (match last_deps r with
            | Some old => negb (deps_eqb old (city (hooks r), API_KEY))
            | None => true
            end).
  - apply exec_fetch_in_flight. exact Hr.
  - exact Hr.
Qed.

Lemma remove_nth_Forall {A} (P : A -> Prop) (n : nat) (l : list A) :
  Forall P l -> Forall P (remove_nth n l).
Proof.
  revert n. induction l as [|x l IH]; intros n Hl.
  - destruct n; constructor.
  - inversion Hl as [|y l' Hx Hrest]; subst. destruct n as [|n]; cbn.
    + exact Hrest.
    + constructor; [exact Hx|apply IH; exact Hrest].
Qed.

Lemma nth_error_Forall {A} (P : A -> Prop) (l : list A) (n : nat) (x : A) :
  Forall P l -> nth_error l n = Some x -> P x.
Proof.
  intros Hl Hn. rewrite Forall_forall in Hl. apply Hl.
  exact (nth_error_In l n Hn).
Qed.

(** Whatever happened before, every request in flight is awaited by the
    rest of a call. *)
Lemma run_in_flight (evs : list Event) :
  Forall awaits_settled (in_flight (run evs)).
Proof.
  induction evs as [|ev evs IH] using rev_ind.
  - apply commit_in_flight. constructor.
  - rewrite run_snoc. destruct ev as [text| |i o]; cbn [step].
    + apply commit_in_flight. exact IH.
    + apply commit_in_flight. exact IH.
    + destruct (nth_error (in_flight (run evs)) i) as [[url k]|] eqn:Hn;
        [|exact IH].
      apply commit_in_flight.
      pose proof (nth_error_Forall _ _ _ _ IH Hn o) as Hk. cbn [snd] in Hk.
      rewrite Hk.
      match goal with
      | |- context [exec ?p ?r0] =>
          destruct (exec_synchronous (fun _ => o) p r0
                      (settled_synchronous o)) as [_ Hf]
      end.
      rewrite Hf. cbn [in_flight]. apply remove_nth_Forall. exact IH.
Qed.

(** When a request in flight settles, the hook state changes by the
    effects of [settled], and by nothing else. *)
Lemma settle_hooks (evs : list Event) (i : nat) (o : AxiosOutcome)
    (url : string) (k : AxiosOutcome -> Act unit) :
  nth_error (in_flight (run evs)) i = Some (url, k) ->
  hooks (step (run evs) (Settle i o))
  = fold_left apply_effect (trace (fun _ => o) (settled o))
      (hooks (run evs)).
Proof.
  intros Hn. cbn [step]. rewrite Hn.
  pose proof (nth_error_Forall _ _ _ _ (run_in_flight evs) Hn o) as Hk.
  cbn [snd] in Hk. rewrite Hk.
  match goal with
  | |- hooks (commit (exec ?p ?r0)) = _ =>
      destruct (exec_synchronous (fun _ => o) p r0 (settled_synchronous o))
        as [Hh _];
      destruct (exec_bookkeeping p r0) as (H1 & _ & H3 & _);
      rewrite (commit_unchanged (exec p r0)); [rewrite Hh; reflexivity|]
  end.
  unfold committed. rewrite H1, H3. cbn. exact (run_committed evs).
Qed.

(** C5.  Whenever a request of the mounted component is rejected with an
    error whose response body holds
    [error.message = "No matching location found."], the error state
    becomes exactly that string, the current conditions become absent and
    the forecast becomes empty.  This holds in every state the component
    can be in when the rejection arrives, whatever was on display and
    whatever else is in flight: the [catch] block clears what an earlier
    or overlapping call has put there. *)
Theorem no_match_error_shown :
  forall (evs : list Event) (i : nat) (url : string)
         (k : AxiosOutcome -> Act unit) (err : JsVal)
         (response body api_error : list (string * JsVal)),
    nth_error (in_flight (run evs)) i = Some (url, k) ->
    own "response" err = JObj response ->
    lookup "data" response = JObj body ->
    lookup "error" body = JObj api_error ->
    lookup "message" api_error = JStr "No matching location found." ->
    error (hooks (step (run evs) (Settle i (Rejected err))))
    = JStr "No matching location found."
    /\ currentWeatherData (hooks (step (run evs) (Settle i (Rejected err))))
       = JNull
    /\ forecastData (hooks (step (run evs) (Settle i (Rejected err))))
       = JArr [].
Proof.
  intros evs i url k err response body api_error Hn Hr Hd He Hm.
  assert (Herr : nullish err = false).
  { destruct err; simpl in Hr; try discriminate; reflexivity. }
  assert (Hs : message_by_precedence err
               = JStr "No matching location found.").
  { unfold message_by_precedence, structured_message.
    rewrite Hr, Hd, He, Hm. reflexivity. }
  rewrite (settle_hooks evs i _ url k Hn). cbn [settled].
  rewrite (catch_block_object err Herr), Hs.
  repeat split.
Qed.

(** ** Further properties of the component *)

(** *** Reachable states *)

Lemma exec_fetch_hooks (r : Runtime) (c : string) :
  hooks (exec (fetchWeatherData c) r) = started (hooks r).
Proof.
  unfold started. destruct (truthy (env_value API_KEY)) eqn:Hkey.
  - rewrite (fetch_with_key c Hkey). reflexivity.
  - rewrite (fetch_without_key c Hkey). reflexivity.
Qed.

Lemma commit_hooks (r : Runtime) :
  hooks (commit r) = hooks r \/ hooks (commit r) = started (hooks r).
Proof.
  unfold commit.
  destruct (match last_deps r with
            | Some old => negb (deps_eqb old (city (hooks r), API_KEY))
            | None => true
            end).
  - right. rewrite exec_fetch_hooks. reflexivity.
  - left. reflexivity.
Qed.

(** Induction over the events of a mounted component, for a property of
    the hook state: it holds initially and is kept by an edit of the text
    field, by a submit, by the start of a call and by a settled request. *)
Lemma run_hooks_ind (P : State -> Prop) :
  P initial_state ->
  (forall st text, P st -> P (setInputCity text st)) ->
  (forall st, P st -> P (handleSubmit st)) ->
  (forall st, P st -> P (started st)) ->
  (forall st o, P st ->
                P (fold_left apply_effect (trace (fun _ => o) (settled o))
                     st)) ->
  forall evs, P (hooks (run evs)).
Proof.
  intros Hinit Htyped Hsubmit Hstart Hsettle.
  assert (Hcommit : forall r, P (hooks r) -> P (hooks (commit r))).
  { intros r Hr. destruct (commit_hooks r) as [E|E]; rewrite E.
    - exact Hr.
    - apply Hstart. exact Hr. }
  induction evs as [|ev evs IH] using rev_ind.
  - apply Hcommit. exact Hinit.
  - rewrite run_snoc. destruct ev as [text| |i o].
    + cbn [step]. apply Hcommit. apply Htyped. exact IH.
    + cbn [step]. apply Hcommit. apply Hsubmit. exact IH.
    + destruct (nth_error (in_flight (run evs)) i) as [[url k]|] eqn:Hn.
      * rewrite (settle_hooks evs i o url k Hn). apply Hsettle. exact IH.
      * cbn [step]. rewrite Hn. exact IH.
Qed.

Lemma settled_error (o : AxiosOutcome) (st : State) :
  error (fold_left apply_effect (trace (fun _ => o) (settled o)) st)
  = error st
  \/ truthy (error (fold_left apply_effect
                      (trace (fun _ => o) (settled o)) st)) = true.
Proof.
  assert (Hcatch : forall e s,
             nullish e = false ->
             truthy (error (fold_left apply_effect
                              (trace (fun _ => o) (catch_block e)) s))
             = true).
  { intros e s N. rewrite (catch_block_object e N). cbn.
    apply message_by_precedence_truthy. }
  destruct o as [response|err]; cbn [settled].
  - destruct (try_block_cases response)
      as [(e & N & E)|[(cur & e & N & E)|(cur & fd & E)]]; rewrite E.
    + right. apply Hcatch. exact N.
    + right. cbn [trace fold_left]. apply Hcatch. exact N.
    + left. reflexivity.
  - destruct (nullish err) eqn:N.
    + left. rewrite (catch_block_nullish err N). reflexivity.
    + right. apply Hcatch. exact N.
Qed.

(** X1.  Whatever the user does and however the requests settle, the
    error state is either [null] or a truthy value: the banner's test
    [error && ...] never hides an error that was set. *)
Theorem error_is_null_or_truthy :
  forall evs : list Event,
    error (hooks (run evs)) = JNull
    \/ truthy (error (hooks (run evs))) = true.
Proof.
  apply (run_hooks_ind
           (fun st => error st = JNull \/ truthy (error st) = true)).
  - left. reflexivity.
  - intros st text H. exact H.
  - intros st H. exact H.
  - intros st _. unfold started.
    destruct (truthy (env_value API_KEY)).
    + left. reflexivity.
    + right. reflexivity.
  - intros st o H. destruct (settled_error o st) as [E|E].
    + rewrite E. exact H.
    + right. exact E.
Qed.

(** X2.  Without a credential the component never has a request in
    flight, never shows current conditions or a forecast, and shows the
    configuration message from the mount on, whatever the events. *)
Theorem no_key_only_configuration_error :
  truthy (env_value API_KEY) = false ->
  forall evs : list Event,
    in_flight (run evs) = []
    /\ weather_cleared (hooks (run evs))
    /\ error (hooks (run evs)) = JStr missing_key_message.
Proof.
  intros Hkey evs.
  destruct (run_without_key evs Hkey) as [Hf Hw].
  split; [exact Hf|]. split; [exact Hw|].
  clear Hf Hw.
  assert (Hcommit : forall r,
             last_deps r = None
             \/ error (hooks r) = JStr missing_key_message ->
             error (hooks (commit r)) = JStr missing_key_message).
  { intros r Hr. unfold commit.
    destruct (last_deps r) as [old|] eqn:Hold.
    - destruct Hr as [Hr|Hr]; [discriminate|].
      destruct (negb (deps_eqb old (city (hooks r), API_KEY))).
      + rewrite exec_fetch_hooks. unfold started. rewrite Hkey. reflexivity.
      + exact Hr.
    - rewrite exec_fetch_hooks. unfold started. rewrite Hkey. reflexivity. }
  induction evs as [|ev evs IH] using rev_ind.
  - apply Hcommit. left. reflexivity.
  - rewrite run_snoc. destruct ev as [text| |i o]; cbn [step].
    + apply Hcommit. right. exact IH.
    + apply Hcommit. right. exact IH.
    + destruct (run_without_key evs Hkey) as [Hf _]. rewrite Hf.
      destruct i; exact IH.
Qed.

(** X3.  Editing the text field changes the draft and nothing else: the
    selected city, the display, the requests in flight and the calls made
    stay as they are. *)
Theorem typing_changes_only_the_draft :
  forall (evs : list Event) (text : string),
    step (run evs) (Typed text) = with_hooks (setInputCity text) (run evs).
Proof.
  intros evs text. cbn [step]. apply commit_unchanged.
  exact (run_committed evs).
Qed.

Lemma commit_cities (r : Runtime) :
  city (hooks (commit r)) = city (hooks r)
  /\ inputCity (hooks (commit r)) = inputCity (hooks r).
Proof.
  unfold commit.
  destruct (match last_deps r with
            | Some old => negb (deps_eqb old (city (hooks r), API_KEY))
            | None => true
            end).
  - match goal with
    | |- context [exec ?p ?r0] =>
        destruct (exec_bookkeeping p r0) as (H1 & H2 & _ & _)
    end.
    rewrite H1, H2. split; reflexivity.
  - split; reflexivity.
Qed.

Lemma commit_calls (r : Runtime) :
  committed r /\ calls (commit r) = calls r
  \/ (~ committed r
      /\ calls (commit r) = (calls r ++ [city (hooks r)])%list).
Proof.
  unfold commit, committed.
  destruct (last_deps r) as [old|] eqn:Hold.
  - destruct (deps_eqb old (city (hooks r), API_KEY)) eqn:E; cbn [negb].
    + left. apply deps_eqb_eq in E. subst old. split; reflexivity.
    + right. split.
      * intros H. injection H as H. subst old.
        rewrite deps_eqb_refl in E. discriminate.
      * match goal with
        | |- context [exec ?p ?r0] =>
            destruct (exec_bookkeeping p r0) as (_ & _ & _ & H4)
        end.
        rewrite H4. reflexivity.
  - right. split; [discriminate|].
    match goal with
    | |- context [exec ?p ?r0] =>
        destruct (exec_bookkeeping p r0) as (_ & _ & _ & H4)
    end.
    rewrite H4. reflexivity.
Qed.

(** X4.  At any moment the latest call of [fetchWeatherData] was made
    for the city that is selected now. *)
Theorem latest_call_is_for_selected_city :
  forall evs : list Event,
    exists earlier,
      calls (run evs) = (earlier ++ [city (hooks (run evs))])%list.
Proof.
  assert (Hcommit : forall r,
             (committed r ->
              exists earlier,
                calls r = (earlier ++ [city (hooks r)])%list) ->
             exists earlier,
               calls (commit r)
               = (earlier ++ [city (hooks (commit r))])%list).
  { intros r Hr. destruct (commit_cities r) as [Hc _]. rewrite Hc.
    destruct (commit_calls r) as [[Hcm E]|[_ E]]; rewrite E.
    - apply Hr. exact Hcm.
    - exists (calls r). reflexivity. }
  induction evs as [|ev evs IH] using rev_ind.
  - apply Hcommit. intros H. discriminate.
  - rewrite run_snoc. destruct ev as [text| |i o].
    + cbn [step]. rewrite commit_unchanged by exact (run_committed evs).
      exact IH.
    + cbn [step]. apply Hcommit. intros Hcm.
      unfold committed in Hcm. cbn in Hcm.
      pose proof (run_committed evs) as Hc. unfold committed in Hc.
      rewrite Hc in Hcm. injection Hcm as Hcm.
      cbn. rewrite Hcm in IH. exact IH.
    + cbn [step].
      destruct (nth_error (in_flight (run evs)) i) as [[url k]|];
        [|exact IH].
      match goal with
      | |- context [commit (exec ?p ?r0)] =>
          destruct (exec_bookkeeping p r0) as (H1 & _ & H3 & H4);
          rewrite (commit_unchanged (exec p r0));
            [rewrite H1, H4; exact IH|]
      end.
      unfold committed. rewrite H1, H3. cbn. exact (run_committed evs).
Qed.

(** *** Settled requests *)

(** X5.  When a request in flight is fulfilled with a body of the
    expected shape, the current conditions and the forecast are replaced by
    those of the body and nothing else changes.  The error state is left as
    it is at that moment: a success does not clear an error that another
    call has set in the meantime. *)
Theorem fulfilled_request_replaces_weather_only :
  forall (evs : list Event) (i : nat) (url : string)
         (k : AxiosOutcome -> Act unit)
         (response body forecast : list (string * JsVal)),
    nth_error (in_flight (run evs)) i = Some (url, k) ->
    lookup "data" response = JObj body ->
    lookup "forecast" body = JObj forecast ->
    hooks (step (run evs) (Settle i (Fulfilled (JObj response))))
    = {| city := city (hooks (run evs));
         inputCity := inputCity (hooks (run evs));
         currentWeatherData := lookup "current" body;
         forecastData := lookup "forecastday" forecast;
         error := error (hooks (run evs)) |}.
Proof.
  intros evs i url k response body forecast Hn Hbody Hfc.
  rewrite (settle_hooks evs i _ url k Hn).
  unfold settled, try_block. cbn [prop]. rewrite Hbody.
  cbn [lift bind prop]. rewrite Hfc. reflexivity.
Qed.

Lemma settle_bookkeeping :
  forall (evs : list Event) (i : nat) (o : AxiosOutcome),
    city (hooks (step (run evs) (Settle i o))) = city (hooks (run evs))
    /\ inputCity (hooks (step (run evs) (Settle i o)))
       = inputCity (hooks (run evs))
    /\ calls (step (run evs) (Settle i o)) = calls (run evs)
    /\ in_flight (step (run evs) (Settle i o))
       = remove_nth i (in_flight (run evs)).
Proof.
  intros evs i o. cbn [step].
  destruct (nth_error (in_flight (run evs)) i) as [[url k]|] eqn:Hn.
  - pose proof (nth_error_Forall _ _ _ _ (run_in_flight evs) Hn o) as Hk.
    cbn [snd] in Hk. rewrite Hk.
    match goal with
    | |- context [commit (exec ?p ?r0)] =>
        destruct (exec_synchronous (fun _ => o) p r0
                    (settled_synchronous o)) as [_ Hf];
        destruct (exec_bookkeeping p r0) as (H1 & H2 & H3 & H4);
        rewrite (commit_unchanged (exec p r0));
          [rewrite H1, H2, H4, Hf; repeat split|]
    end.
    unfold committed. rewrite H1, H3. cbn. exact (run_committed evs).
  - repeat split. symmetry.
    clear -Hn. revert i Hn.
    induction (in_flight (run evs)) as [|x l IH]; intros i Hn.
    + destruct i; reflexivity.
    + destruct i as [|i]; [discriminate|]. cbn. f_equal. apply IH. exact Hn.
Qed.

(** X6.  A settled request, whatever its outcome, changes neither the
    selected city nor the text field, causes no further call of
    [fetchWeatherData] (there is no retry), and leaves the other requests
    in flight as they are. *)
Theorem settled_request_triggers_nothing :
  forall (evs : list Event) (i : nat) (o : AxiosOutcome),
    city (hooks (step (run evs) (Settle i o))) = city (hooks (run evs))
    /\ inputCity (hooks (step (run evs) (Settle i o)))
       = inputCity (hooks (run evs))
    /\ calls (step (run evs) (Settle i o)) = calls (run evs)
    /\ in_flight (step (run evs) (Settle i o))
       = remove_nth i (in_flight (run evs)).
Proof.
  intros evs i o.
  destruct (settle_bookkeeping evs i o) as (Hcity & Hdraft & Hcalls & Hfl).
  split; [exact Hcity|]. split; [exact Hdraft|].
  split; [exact Hcalls|exact Hfl].
Qed.



(** X7.  When the request is rejected with [null] or [undefined] in
    place of an error object, the [catch] block itself throws while it
    reads [err.response]: no message is set, and the display stays as the
    start of the call cleared it. *)
Theorem rejection_without_error_object :
  truthy (env_value API_KEY) = true ->
  forall (net : string -> AxiosOutcome) (c : string) (st : State)
         (err : JsVal),
    net (forecast_url c) = Rejected err ->
    nullish err = true ->
    trace net (fetchWeatherData c)
    = [ ESetError JNull; ESetCurrentWeatherData JNull;
        ESetForecastData (JArr []); ERequest (forecast_url c);
        EUnhandled (TypeError err "response") ]
    /\ error (fetch_alone net c st) = JNull
    /\ weather_cleared (fetch_alone net c st).
Proof.
  intros Hkey net c st err Hnet Herr.
  unfold fetch_alone. rewrite (trace_with_key net c Hkey), Hnet.
  cbn [settled]. rewrite (catch_block_nullish err Herr).
  repeat split.
Qed.

(** X8.  With a credential every call issues exactly one request,
    whatever the outcome: to the forecast endpoint, with the key, the city
    and [days=7].  A failure is not retried. *)
Theorem one_request_per_call :
  truthy (env_value API_KEY) = true ->
  forall (net : string -> AxiosOutcome) (c : string),
    requests_of (trace net (fetchWeatherData c))
    = [ "https://api.weatherapi.com/v1/forecast.json?key="
          ++ env_text API_KEY ++ "&q=" ++ c ++ "&days=7" ].
Proof.
  intros Hkey net c. rewrite (trace_with_key net c Hkey). cbn.
  rewrite (synchronous_no_request net _ (settled_synchronous _)).
  reflexivity.
Qed.

(** *** Submitting *)

Lemma submit_selected_city (r : Runtime) :
  committed r ->
  inputCity (hooks r) = city (hooks r) ->
  step r Submit = r.
Proof.
  intros Hc Hsame. cbn [step].
  assert (E : with_hooks handleSubmit r = r).
  { destruct r as [h d f cs]. destruct h as [c ic cur fc e].
    cbn in Hsame. subst ic. reflexivity. }
  rewrite E. apply commit_unchanged. exact Hc.
Qed.

(** X9.  Submitting twice in a row is submitting once: the second submit
    finds the selected city equal to the text field and changes nothing,
    so no second call is made. *)
Theorem submit_twice_is_submit_once :
  forall evs : list Event,
    step (step (run evs) Submit) Submit = step (run evs) Submit.
Proof.
  intros evs. rewrite <- run_snoc. apply submit_selected_city.
  - apply run_committed.
  - rewrite run_snoc. cbn [step].
    destruct (commit_cities (with_hooks handleSubmit (run evs)))
      as [Hc Hi].
    rewrite Hc, Hi. reflexivity.
Qed.

(** *** Requests and calls *)

Lemma requested_for_more (cs more : list string)
    (l : list (string * (AxiosOutcome -> Act unit))) :
  Forall (requested_for cs) l -> Forall (requested_for (cs ++ more)) l.
Proof.
  intros Hl. apply (Forall_impl (requested_for (cs ++ more))) with (2 := Hl).
  intros e (c & Hin & E). exists c. split; [|exact E].
  apply in_or_app. left. exact Hin.
Qed.

Lemma exec_fetch_requests (r : Runtime) (c : string) :
  in_flight (exec (fetchWeatherData c) r) = in_flight r
  \/ exists k,
       in_flight (exec (fetchWeatherData c) r)
       = (in_flight r ++ [(forecast_url c, k)])%list.
Proof.
  destruct (truthy (env_value API_KEY)) eqn:Hkey.
  - right. rewrite (fetch_with_key c Hkey). cbn [exec in_flight with_hooks].
    eexists. reflexivity.
  - left. rewrite (fetch_without_key c Hkey). reflexivity.
Qed.

Lemma remove_nth_length {A} (n : nat) (l : list A) :
  List.length (remove_nth n l) <= List.length l.
Proof.
  revert n. induction l as [|x l IH]; intros n.
  - destruct n; cbn; lia.
  - destruct n as [|n]; cbn; [lia|]. specialize (IH n). lia.
Qed.

(** X10.  Every request in flight asks for the forecast of a city that
    [fetchWeatherData] was called with, and there are never more requests
    in flight than calls made. *)
Theorem requests_in_flight_come_from_calls :
  forall evs : list Event,
    Forall (requested_for (calls (run evs))) (in_flight (run evs))
    /\ List.length (in_flight (run evs)) <= List.length (calls (run evs)).
Proof.
  assert (Hcommit : forall r,
             Forall (requested_for (calls r)) (in_flight r)
             /\ List.length (in_flight r) <= List.length (calls r) ->
             Forall (requested_for (calls (commit r))) (in_flight (commit r))
             /\ List.length (in_flight (commit r))
                <= List.length (calls (commit r))).
  { intros r [Hr Hlen]. unfold commit.
    destruct (match last_deps r with
              | Some old => negb (deps_eqb old (city (hooks r), API_KEY))
              | None => true
              end); [|split; assumption].
    match goal with
    | |- context [exec ?p ?r0] =>
        destruct (exec_bookkeeping p r0) as (_ & _ & _ & H4);
        destruct (exec_fetch_requests r0 (city (hooks r))) as [E|(k & E)]
    end; rewrite H4, E; cbn [calls in_flight]; rewrite ?length_app;
      cbn [List.length].
    - split; [apply requested_for_more; exact Hr|lia].
    - split; [|lia]. apply Forall_app. split.
      + apply requested_for_more. exact Hr.
      + constructor; [|constructor]. exists (city (hooks r)).
        split; [|reflexivity]. apply in_or_app. right. left. reflexivity. }
  induction evs as [|ev evs IH] using rev_ind.
  - apply Hcommit. cbn. split; [constructor|lia].
  - rewrite run_snoc. destruct ev as [text| |i o].
    + cbn [step]. apply Hcommit. exact IH.
    + cbn [step]. apply Hcommit. exact IH.
    + destruct (settle_bookkeeping evs i o) as (_ & _ & Hcalls & Hfl).
      rewrite Hcalls, Hfl. destruct IH as [IH Hlen]. split.
      * apply remove_nth_Forall. exact IH.
      * pose proof (remove_nth_length i (in_flight (run evs))). lia.
Qed.

(** *** The chart data *)

Lemma rmap_throws {A B} (f : A -> Result B) (l : list A) (x : A) :
  In x l -> (exists e, f x = Throw e) -> exists e, rmap f l = Throw e.
Proof.
  intros Hin (e & He). induction l as [|y rest IH]; [destruct Hin|].
  cbn [rmap]. destruct (f y) as [b|e'] eqn:Hy; cbn [rbind].
  - destruct Hin as [E|Hin]; [subst y; congruence|].
    destruct (IH Hin) as (e'' & E). rewrite E. cbn [rbind].
    exists e''. reflexivity.
  - exists e'. reflexivity.
Qed.

Lemma forallb_false_In {A} (f : A -> bool) (l : list A) :
  forallb f l = false -> exists x, In x l /\ f x = false.
Proof.
  induction l as [|y rest IH]; cbn; [discriminate|].
  destruct (f y) eqn:Hy; cbn.
  - intros H. destruct (IH H) as (x & Hin & Hx). exists x. auto.
  - intros _. exists y. auto.
Qed.

Lemma chartData_bad_entry (days : list JsVal) :
  forallb entry_ok days = false ->
  exists e, chartData (JArr days) = Throw e.
Proof.
  intros Hbad. destruct (forallb_false_In _ _ Hbad) as (d & Hin & Hd).
  unfold chartData, array_map.
  destruct (rmap (fun day => prop day "date") days) as [dates|e] eqn:Hdates;
    cbn [rbind]; [|exists e; reflexivity].
  assert (Hthrow : exists e, day_field "avgtemp_f" d = Throw e).
  { unfold entry_ok in Hd. unfold day_field.
    destruct (prop_cases d "day") as [[_ E]|[N E]]; rewrite E; cbn [rbind].
    - eexists. reflexivity.
    - rewrite N in Hd. cbn in Hd.
      destruct (prop_cases (own "day" d) "avgtemp_f") as [[_ E']|[N' E']].
      + rewrite E'. eexists. reflexivity.
      + rewrite N' in Hd. discriminate. }
  destruct (rmap_throws (day_field "avgtemp_f") days d Hin Hthrow)
    as (e & E).
  rewrite E. exists e. reflexivity.
Qed.

(** What [chartData] is when it returns. *)
Lemma chartData_inv (forecast : JsVal) (cd : ChartData) :
  chartData forecast = Ok cd ->
  exists days,
    forecast = JArr days
    /\ forallb entry_ok days = true
    /\ cd = {| labels := map (own "date") days;
               datasets :=
                 [ line_series "Avg. Temperature (°F)"
                     (map (temperature "avgtemp_f") days)
                     "rgb(75, 192, 192)" "rgba(75, 192, 192, 0.5)";
                   line_series "Max Temperature (°F)"
                     (map (temperature "maxtemp_f") days)
                     "rgb(255, 99, 132)" "rgba(255, 99, 132, 0.5)";
                   line_series "Min Temperature (°F)"
                     (map (temperature "mintemp_f") days)
                     "rgb(54, 162, 235)" "rgba(54, 162, 235, 0.5)" ] |}.
Proof.
  intros H. destruct forecast as [| | | | |days|];
    try (cbn in H; discriminate).
  exists days. split; [reflexivity|].
  destruct (forallb entry_ok days) eqn:Hok.
  - split; [reflexivity|]. rewrite (chartData_of_entries days Hok) in H.
    injection H as <-. reflexivity.
  - destruct (chartData_bad_entry days Hok) as (e & E). congruence.
Qed.

(** X11.  [chartData] returns exactly when the forecast is an array whose
    entries are all objects with a [day] object; one entry that is [null]
    or lacks [day] makes the whole projection throw, and no partial chart
    is built. *)
Theorem chartData_returns_iff_entries_are_days :
  forall forecast : JsVal,
    (exists cd, chartData forecast = Ok cd)
    <-> (exists days,
           forecast = JArr days /\ forallb entry_ok days = true).
Proof.
  intros forecast. split.
  - intros (cd & H). destruct (chartData_inv forecast cd H)
      as (days & E & Hok & _).
    exists days. split; assumption.
  - intros (days & E & Hok). subst forecast.
    rewrite (chartData_of_entries days Hok). eexists. reflexivity.
Qed.

(** X12.  Whenever [chartData] returns, the labels and the three series
    are aligned: each has one element per entry of the forecast, and the
    series are the average, the maximum and the minimum, in this order. *)
Theorem chartData_is_aligned :
  forall (forecast : JsVal) (cd : ChartData),
    chartData forecast = Ok cd ->
    exists days,
      forecast = JArr days
      /\ List.length (labels cd) = List.length days
      /\ Forall (fun ds => List.length (data ds) = List.length days)
           (datasets cd)
      /\ map label (datasets cd)
         = [ "Avg. Temperature (°F)"; "Max Temperature (°F)";
             "Min Temperature (°F)" ].
Proof.
  intros forecast cd H.
  destruct (chartData_inv forecast cd H) as (days & E & _ & Hcd).
  exists days. subst cd. cbn [labels datasets].
  split; [exact E|]. split; [apply length_map|]. split; [|reflexivity].
  repeat constructor; cbn [data line_series]; apply length_map.
Qed.

(** *** What is put on display *)

Lemma weather_card_inv (c : string) (w : JsVal) (shown_card : Card) :
  nullish w = false ->
  weather_card c w = Ok shown_card ->
  shown_card
  = {| heading := "Current Weather in " ++ c;
       temp_f := own "temp_f" w;
       condition_text := own "text" (own "condition" w);
       humidity := own "humidity" w;
       wind_mph := own "wind_mph" w;
       wind_dir := own "wind_dir" w;
       icon := own "icon" (own "condition" w);
       alt := own "text" (own "condition" w) |}.
Proof.
  intros N H. unfold weather_card in H.
  rewrite !(prop_own w _ N) in H. cbn [rbind] in H.
  destruct (prop_cases (own "condition" w) "text") as [[_ E]|[N' E]];
    rewrite E in H; cbn [rbind] in H; [discriminate|].
  rewrite (prop_own _ "icon" N') in H. cbn [rbind] in H.
  injection H as <-. reflexivity.
Qed.

(** X13.  What a render puts on display is the state and nothing else:
    the banner holds the error value; the card holds the fields of the
    current conditions under a heading that names the selected city; the
    chart holds the projection of the forecast under a title that names
    the selected city. *)
Theorem render_shows_the_state :
  forall (st : State) (view : View),
    render st = Ok view ->
    (forall text, banner view = Some text -> text = error st)
    /\ (forall w,
          card view = Some w ->
          heading w = "Current Weather in " ++ city st
          /\ temp_f w = own "temp_f" (currentWeatherData st)
          /\ condition_text w
             = own "text" (own "condition" (currentWeatherData st))
          /\ humidity w = own "humidity" (currentWeatherData st)
          /\ wind_mph w = own "wind_mph" (currentWeatherData st)
          /\ wind_dir w = own "wind_dir" (currentWeatherData st)
          /\ icon w = own "icon" (own "condition" (currentWeatherData st)))
    /\ (forall cd title,
          chart view = Some (cd, title) ->
          chartData (forecastData st) = Ok cd
          /\ title = "7-Day Temperature Forecast for " ++ city st).
Proof.
  intros st view H. unfold render in H.
  destruct (chartData (forecastData st)) as [cd|e] eqn:Hcd;
    cbn [rbind] in H; [|discriminate].
  destruct (truthy (currentWeatherData st)) eqn:Hc.
  - destruct (weather_card (city st) (currentWeatherData st)) as [w|e]
      eqn:Hw; cbn [rbind] in H; [|discriminate].
    destruct (forecastData st) as [| | | | |items|]; try discriminate.
    injection H as <-. cbn [banner card chart].
    split; [|split].
    + intros text. destruct (truthy (error st)); congruence.
    + intros w' E. injection E as <-.
      rewrite (weather_card_inv _ _ w (truthy_not_nullish _ Hc) Hw).
      cbn. repeat split.
    + intros cd' title. destruct (Nat.ltb 0 (List.length items));
        [|discriminate].
      intros E. injection E as <- <-. split; reflexivity.
  - cbn [rbind] in H.
    destruct (forecastData st) as [| | | | |items|]; try discriminate.
    injection H as <-. cbn [banner card chart].
    split; [|split].
    + intros text. destruct (truthy (error st)); congruence.
    + intros w E. discriminate.
    + intros cd' title. destruct (Nat.ltb 0 (List.length items));
        [|discriminate].
      intros E. injection E as <- <-. split; reflexivity.
Qed.

(** X14.  While a request is pending, right after a call has started with
    a credential, the component renders nothing: no banner, no card, no
    chart (and no loading indicator). *)
Theorem pending_request_renders_nothing :
  truthy (env_value API_KEY) = true ->
  forall (r : Runtime) (c : string),
    render (hooks (exec (fetchWeatherData c) r))
    = Ok {| banner := None; card := None; chart := None |}.
Proof.
  intros Hkey r c. rewrite exec_fetch_hooks. unfold started.
  rewrite Hkey. reflexivity.
Qed.

(** X15.  A fulfilled response whose [forecast] is an object without a
    [forecastday] array is stored as it is, and the next render throws at
    [forecastData.map]: the component shows nothing at all. *)
Theorem forecast_without_array_breaks_render :
  truthy (env_value API_KEY) = true ->
  forall (net : string -> AxiosOutcome) (c : string) (st : State)
         (response body forecast : list (string * JsVal)),
    net (forecast_url c) = Fulfilled (JObj response) ->
    lookup "data" response = JObj body ->
    lookup "forecast" body = JObj forecast ->
    is_array (lookup "forecastday" forecast) = false ->
    error (fetch_alone net c st) = JNull
    /\ render (fetch_alone net c st)
       = Throw (TypeError (lookup "forecastday" forecast) "map").
Proof.
  intros Hkey net c st response body forecast Hnet Hbody Hfc Harr.
  rewrite (fetch_success net c st response body forecast Hkey Hnet Hbody Hfc).
  split; [reflexivity|].
  unfold render, chartData. cbn [forecastData].
  destruct (lookup "forecastday" forecast); try discriminate; reflexivity.
Qed.

(** X16.  Current conditions that are set but have no [condition] make
    the render throw while it reads [condition.text], even when the
    forecast is fine: neither the card nor the chart is shown. *)
Theorem card_without_condition_breaks_render :
  forall (st : State) (cd : ChartData),
    chartData (forecastData st) = Ok cd ->
    truthy (currentWeatherData st) = true ->
    nullish (own "condition" (currentWeatherData st)) = true ->
    render st
    = Throw (TypeError (own "condition" (currentWeatherData st)) "text").
Proof.
  intros st cd Hcd Hc Hcond. unfold render. rewrite Hcd. cbn [rbind].
  rewrite Hc. unfold weather_card.
  rewrite !(prop_own (currentWeatherData st) _ (truthy_not_nullish _ Hc)).
  cbn [rbind].
  destruct (prop_cases (own "condition" (currentWeatherData st)) "text")
    as [[_ E]|[N _]]; [|congruence].
  rewrite E. reflexivity.
Qed.

(** *** The tooltip *)

(** X17.  For a point of one of the three series of the chart, the
    tooltip reads the label of the series, a colon, and the value followed
    by the unit; for a point without a value ([null]) it reads the label
    and the colon only. *)
Theorem tooltip_of_a_series :
  forall (forecast : JsVal) (cd : ChartData) (ds : Dataset)
         (context dataset parsed : list (string * JsVal)) (y : JsVal),
    chartData forecast = Ok cd ->
    In ds (datasets cd) ->
    lookup "dataset" context = JObj dataset ->
    lookup "label" dataset = JStr (label ds) ->
    lookup "parsed" context = JObj parsed ->
    lookup "y" parsed = y ->
    tooltip_label (JObj context)
    = Ok (JStr (if strict_not_null y
                then (label ds ++ ": ") ++ (js_text y ++ "°F")
                else label ds ++ ": ")).
Proof.
  intros forecast cd ds context dataset parsed y Hcd Hin Hds Hlabel Hp Hy.
  assert (Htruthy : truthy (JStr (label ds)) = true).
  { destruct (chartData_inv forecast cd Hcd) as (days & _ & _ & E).
    subst cd. cbn [datasets] in Hin.
    destruct Hin as [<-|[<-|[<-|[]]]]; reflexivity. }
  unfold tooltip_label, js_or. cbn [prop rbind].
  rewrite Hds. cbn [prop rbind]. rewrite Hlabel, Htruthy, Hp.
  cbn [prop rbind]. rewrite Hy.
  destruct (strict_not_null y); cbn [rbind]; rewrite ?Hy, ?Htruthy;
    reflexivity.
Qed.
End Component.

(** ** The claims at concrete inputs *)

(** C9.  For the city ["Tyne & Wear"] the one request goes to a URL that
    holds the city raw, with its spaces and its [&]; the URL-encoded city
    would read [Tyne%20%26%20Wear]. *)
Theorem city_is_interpolated_raw :
  forall net : string -> AxiosOutcome,
    requests_of
      (trace net
         (fetchWeatherData v8_type_error_message (Some "KEY") "Tyne & Wear"))
    = [ "https://api.weatherapi.com/v1/forecast.json?key=KEY&q=Tyne & Wear&days=7" ]
    /\ encodeURIComponent "Tyne & Wear" = "Tyne%20%26%20Wear"
    /\ forecast_url (Some "KEY") "Tyne & Wear"
       <> "https://api.weatherapi.com/v1/forecast.json?key=KEY&q="
            ++ encodeURIComponent "Tyne & Wear" ++ "&days=7".
Proof.
  intros net. split; [|split].
  - rewrite single_request by reflexivity. reflexivity.
  - reflexivity.
  - vm_compute. discriminate.
Qed.

Lemma missing_key_sets_error_without_request_witness :
  truthy (env_value None) = false
  /\ trace (fun _ => Fulfilled sample_response)
       (fetchWeatherData v8_type_error_message None "London")
     = [ESetError (JStr missing_key_message)]
  /\ requests_of
       (trace (fun _ => Fulfilled sample_response)
          (fetchWeatherData v8_type_error_message None "London")) = []
  /\ error (fetch_alone v8_type_error_message None
              (fun _ => Fulfilled sample_response) "London" initial_state)
     = JStr missing_key_message.
Proof.
  split; [reflexivity|].
  apply (missing_key_sets_error_without_request v8_type_error_message None).
  reflexivity.
Defined.

(** C1, as stated, fails without a credential: the call sets the error
    and returns; nothing is cleared. *)
Lemma missing_key_clears_nothing :
  ~ cleared_first
      (trace (fun _ => Fulfilled sample_response)
         (fetchWeatherData v8_type_error_message None "London")).
Proof.
  intros (rest & H). vm_compute in H. discriminate.
Qed.

Lemma fetch_with_key_clears_first_witness :
  truthy (env_value (Some "KEY")) = true
  /\ exists rest,
       trace (fun _ => Fulfilled sample_response)
         (fetchWeatherData v8_type_error_message (Some "KEY") "London")
       = ESetError JNull :: ESetCurrentWeatherData JNull
           :: ESetForecastData (JArr [])
           :: ERequest (forecast_url (Some "KEY") "London") :: rest.
Proof.
  split; [reflexivity|].
  apply (fetch_with_key_clears_first v8_type_error_message (Some "KEY")).
  reflexivity.
Defined.

Lemma error_message_precedence_witness :
  truthy (env_value (Some "KEY")) = true
  /\ nullish network_error = false
  /\ catch_message v8_type_error_message network_error
     = Ok (JStr "Network Error")
  /\ error (fetch_alone v8_type_error_message (Some "KEY")
              (fun _ => Rejected network_error) "London" initial_state)
     = JStr "Network Error".
Proof.
  split; [reflexivity|]. split; [reflexivity|].
  destruct (error_message_precedence v8_type_error_message (Some "KEY")
              eq_refl (fun _ => Rejected network_error) "London"
              initial_state network_error eq_refl eq_refl)
    as (H1 & H2 & _).
  split; [exact H1|exact H2].
Defined.

Lemma no_match_error_shown_witness :
  (exists url k,
     nth_error
       (in_flight (run v8_type_error_message (Some "KEY")
                     [ Typed "Zzzzz"; Submit;
                       Settle 0 (Fulfilled sample_response) ])) 0
     = Some (url, k))
  /\ currentWeatherData
       (hooks (run v8_type_error_message (Some "KEY")
                 [ Typed "Zzzzz"; Submit;
                   Settle 0 (Fulfilled sample_response) ]))
     = sample_current
  /\ error (hooks (step v8_type_error_message (Some "KEY")
                     (run v8_type_error_message (Some "KEY")
                        [ Typed "Zzzzz"; Submit;
                          Settle 0 (Fulfilled sample_response) ])
                     (Settle 0 (Rejected no_match_error))))
     = JStr "No matching location found."
  /\ currentWeatherData
       (hooks (step v8_type_error_message (Some "KEY")
                 (run v8_type_error_message (Some "KEY")
                    [ Typed "Zzzzz"; Submit;
                      Settle 0 (Fulfilled sample_response) ])
                 (Settle 0 (Rejected no_match_error))))
     = JNull
  /\ forecastData
       (hooks (step v8_type_error_message (Some "KEY")
                 (run v8_type_error_message (Some "KEY")
                    [ Typed "Zzzzz"; Submit;
                      Settle 0 (Fulfilled sample_response) ])
                 (Settle 0 (Rejected no_match_error))))
     = JArr [].
Proof.
  split; [do 2 eexists; reflexivity|]. split; [reflexivity|].
  eapply (no_match_error_shown v8_type_error_message (Some "KEY")
            [ Typed "Zzzzz"; Submit; Settle 0 (Fulfilled sample_response) ]
            0 _ _ no_match_error
            [("status", JNum (400 # 1)%Q);
             ("data",
              JObj [("error",
                     JObj [("message",
                            JStr "No matching location found.")])])]
            [("error",
              JObj [("message", JStr "No matching location found.")])]
            [("message", JStr "No matching location found.")]);
    reflexivity.
Defined.

(** C10, as stated, fails for a body whose [forecast] is there without
    [forecastday]: nothing throws, the current conditions stay populated,
    the forecast is [undefined] and no error is set. *)
Lemma forecast_without_days_is_not_caught :
  ~ (ErrorState_set
       (fetch_alone v8_type_error_message (Some "KEY")
          (fun _ => Fulfilled response_without_forecastday) "London"
          initial_state)
     /\ weather_cleared
          (fetch_alone v8_type_error_message (Some "KEY")
             (fun _ => Fulfilled response_without_forecastday) "London"
             initial_state)).
Proof.
  intros [H _]. vm_compute in H. discriminate.
Qed.

Lemma missing_forecast_is_caught_witness :
  truthy (env_value (Some "KEY")) = true
  /\ nullish JUndefined = true
  /\ v8_type_error_message JUndefined "forecastday" <> ""
  /\ error (fetch_alone v8_type_error_message (Some "KEY")
              (fun _ => Fulfilled response_without_forecast) "London"
              initial_state)
     = JStr "Cannot read properties of undefined (reading 'forecastday')"
  /\ currentWeatherData
       (fetch_alone v8_type_error_message (Some "KEY")
          (fun _ => Fulfilled response_without_forecast) "London"
          initial_state) = JNull
  /\ forecastData
       (fetch_alone v8_type_error_message (Some "KEY")
          (fun _ => Fulfilled response_without_forecast) "London"
          initial_state) = JArr [].
Proof.
  split; [reflexivity|]. split; [reflexivity|].
  assert (Hmsg : v8_type_error_message JUndefined "forecastday" <> "")
    by (vm_compute; discriminate).
  split; [exact Hmsg|].
  destruct (missing_forecast_is_caught v8_type_error_message (Some "KEY")
              eq_refl (fun _ => Fulfilled response_without_forecast)
              "London" initial_state response_without_forecast
              (JObj [("current", sample_current)]) sample_current JUndefined
              eq_refl eq_refl eq_refl eq_refl eq_refl Hmsg)
    as (_ & H).
  exact H.
Defined.

Lemma chart_projection_of_fetched_forecast_witness :
  truthy (env_value (Some "KEY")) = true
  /\ forallb entry_ok sample_days = true
  /\ List.length sample_days = 3
  /\ exists avg max min,
       chartData v8_type_error_message
         (forecastData
            (fetch_alone v8_type_error_message (Some "KEY")
               (fun _ => Fulfilled sample_response) "London" initial_state))
       = Ok {| labels := map (own "date") sample_days;
               datasets := [avg; max; min] |}
       /\ data avg = map (temperature "avgtemp_f") sample_days
       /\ data max = map (temperature "maxtemp_f") sample_days
       /\ data min = map (temperature "mintemp_f") sample_days
       /\ List.length (map (own "date") sample_days) = 3
       /\ List.length (data avg) = 3
       /\ List.length (data max) = 3
       /\ List.length (data min) = 3.
Proof.
  split; [reflexivity|]. split; [reflexivity|]. split; [reflexivity|].
  eapply (chart_projection_of_fetched_forecast v8_type_error_message
            (Some "KEY") eq_refl (fun _ => Fulfilled sample_response)
            "London" initial_state);
    reflexivity.
Defined.

Lemma render_guards_witness :
  ErrorState_typed
    (hooks (run v8_type_error_message (Some "KEY")
              [ Typed "Zzzzz"; Submit;
                Settle 1 (Rejected no_match_error);
                Settle 0 (Fulfilled sample_response) ]))
  /\ CurrentConditions_typed
       (hooks (run v8_type_error_message (Some "KEY")
                 [ Typed "Zzzzz"; Submit;
                   Settle 1 (Rejected no_match_error);
                   Settle 0 (Fulfilled sample_response) ]))
  /\ ForecastSeries_typed
       (hooks (run v8_type_error_message (Some "KEY")
                 [ Typed "Zzzzz"; Submit;
                   Settle 1 (Rejected no_match_error);
                   Settle 0 (Fulfilled sample_response) ]))
  /\ exists view,
       render v8_type_error_message
         (hooks (run v8_type_error_message (Some "KEY")
                   [ Typed "Zzzzz"; Submit;
                     Settle 1 (Rejected no_match_error);
                     Settle 0 (Fulfilled sample_response) ]))
       = Ok view
       /\ (shown (banner view)
           <-> ErrorState_set
                 (hooks (run v8_type_error_message (Some "KEY")
                           [ Typed "Zzzzz"; Submit;
                             Settle 1 (Rejected no_match_error);
                             Settle 0 (Fulfilled sample_response) ])))
       /\ (shown (card view)
           <-> CurrentConditions_set
                 (hooks (run v8_type_error_message (Some "KEY")
                           [ Typed "Zzzzz"; Submit;
                             Settle 1 (Rejected no_match_error);
                             Settle 0 (Fulfilled sample_response) ])))
       /\ (shown (chart view)
           <-> ForecastSeries_populated
                 (hooks (run v8_type_error_message (Some "KEY")
                           [ Typed "Zzzzz"; Submit;
                             Settle 1 (Rejected no_match_error);
                             Settle 0 (Fulfilled sample_response) ]))).
Proof.
  assert (He : ErrorState_typed
                 (hooks (run v8_type_error_message (Some "KEY")
                           [ Typed "Zzzzz"; Submit;
                             Settle 1 (Rejected no_match_error);
                             Settle 0 (Fulfilled sample_response) ]))).
  { right. exists "No matching location found.".
    split; [discriminate|reflexivity]. }
  assert (Hc : CurrentConditions_typed
                 (hooks (run v8_type_error_message (Some "KEY")
                           [ Typed "Zzzzz"; Submit;
                             Settle 1 (Rejected no_match_error);
                             Settle 0 (Fulfilled sample_response) ]))).
  { right. eexists. split; reflexivity. }
  assert (Hf : ForecastSeries_typed
                 (hooks (run v8_type_error_message (Some "KEY")
                           [ Typed "Zzzzz"; Submit;
                             Settle 1 (Rejected no_match_error);
                             Settle 0 (Fulfilled sample_response) ]))).
  { exists sample_days. split; reflexivity. }
  split; [exact He|]. split; [exact Hc|]. split; [exact Hf|].
  exact (render_guards v8_type_error_message _ He Hc Hf).
Defined.

(** In that state all three regions are on display at once. *)
Example three_regions_at_once :
  exists w cd,
    render v8_type_error_message
      (hooks (run v8_type_error_message (Some "KEY")
                [ Typed "Zzzzz"; Submit;
                  Settle 1 (Rejected no_match_error);
                  Settle 0 (Fulfilled sample_response) ]))
    = Ok {| banner := Some (JStr "No matching location found.");
            card := Some w;
            chart := Some (cd, "7-Day Temperature Forecast for Zzzzz") |}.
Proof. do 2 eexists. reflexivity. Qed.

(** C7, as stated, fails when the submitted text is the selected city:
    right after the mount both are ["London"], and submitting calls
    [fetchWeatherData] no further time. *)
Lemma submit_same_city_fetches_nothing :
  inputCity (hooks (mount v8_type_error_message (Some "KEY"))) = "London"
  /\ calls (step v8_type_error_message (Some "KEY")
              (mount v8_type_error_message (Some "KEY")) Submit)
     = calls (mount v8_type_error_message (Some "KEY"))
  /\ calls (step v8_type_error_message (Some "KEY")
              (mount v8_type_error_message (Some "KEY")) Submit)
     <> (calls (mount v8_type_error_message (Some "KEY")) ++ ["London"])%list.
Proof.
  split; [reflexivity|]. split; [reflexivity|].
  vm_compute. discriminate.
Qed.

Lemma submit_new_city_fetches_once_witness :
  inputCity (hooks (run v8_type_error_message (Some "KEY") [Typed "Paris"]))
  = "Paris"
  /\ "Paris"
     <> city (hooks (run v8_type_error_message (Some "KEY") [Typed "Paris"]))
  /\ city (hooks (step v8_type_error_message (Some "KEY")
                    (run v8_type_error_message (Some "KEY") [Typed "Paris"])
                    Submit)) = "Paris"
  /\ calls (step v8_type_error_message (Some "KEY")
              (run v8_type_error_message (Some "KEY") [Typed "Paris"])
              Submit)
     = (calls (run v8_type_error_message (Some "KEY") [Typed "Paris"])
          ++ ["Paris"])%list.
Proof.
  assert (Hne : "Paris"
                <> city (hooks (run v8_type_error_message (Some "KEY")
                                  [Typed "Paris"])))
    by (vm_compute; discriminate).
  split; [reflexivity|]. split; [exact Hne|].
  exact (submit_new_city_fetches_once v8_type_error_message (Some "KEY")
           [Typed "Paris"] "Paris" eq_refl Hne).
Defined.

(** C4, as stated, fails when two attempts overlap.  The component is
    mounted with a credential (the request for London is in flight), the
    user submits ["Zzzzz"] (a second request is in flight), the second
    request is rejected with the API's error, then the first is fulfilled:
    the error of the second stays set next to the conditions and forecast
    of the first. *)
Lemma overlapping_fetches_show_both :
  error (hooks (run v8_type_error_message (Some "KEY")
                  [ Typed "Zzzzz"; Submit;
                    Settle 1 (Rejected no_match_error);
                    Settle 0 (Fulfilled sample_response) ]))
  = JStr "No matching location found."
  /\ currentWeatherData
       (hooks (run v8_type_error_message (Some "KEY")
                 [ Typed "Zzzzz"; Submit;
                   Settle 1 (Rejected no_match_error);
                   Settle 0 (Fulfilled sample_response) ]))
     = sample_current
  /\ ~ one_result
         (hooks (run v8_type_error_message (Some "KEY")
                   [ Typed "Zzzzz"; Submit;
                     Settle 1 (Rejected no_match_error);
                     Settle 0 (Fulfilled sample_response) ])).
Proof.
  split; [reflexivity|]. split; [reflexivity|].
  intros [H _]. specialize (H eq_refl). destruct H as [H _].
  vm_compute in H. discriminate.
Qed.

(** ** The scenarios of the specification *)

(** Mount with a credential, the request for London fulfilled: a card, a
    chart titled for London with one point per entry, no banner. *)
Example mount_then_success :
  exists w cd,
    render v8_type_error_message
      (hooks (run v8_type_error_message (Some "KEY")
                [Settle 0 (Fulfilled sample_response)]))
    = Ok {| banner := None;
            card := Some w;
            chart := Some (cd, "7-Day Temperature Forecast for London") |}
    /\ labels cd
       = [JStr "2024-05-01"; JStr "2024-05-02"; JStr "2024-05-03"]
    /\ map (fun ds => List.length (data ds)) (datasets cd) = [3; 3; 3].
Proof. do 2 eexists. split; [reflexivity|]. split; reflexivity. Qed.

(** Submitting ["Zzzzz"], rejected with the API's error: the banner with
    the API's text, no card, no chart. *)
Example submit_unknown_city :
  render v8_type_error_message
    (hooks (run v8_type_error_message (Some "KEY")
              [ Settle 0 (Fulfilled sample_response);
                Typed "Zzzzz"; Submit;
                Settle 0 (Rejected no_match_error) ]))
  = Ok {| banner := Some (JStr "No matching location found.");
          card := None;
          chart := None |}.
Proof. reflexivity. Qed.

(** ** The further properties at concrete inputs *)

Lemma no_key_only_configuration_error_witness :
  truthy (env_value None) = false
  /\ in_flight (run v8_type_error_message None [Typed "Paris"; Submit]) = []
  /\ weather_cleared
       (hooks (run v8_type_error_message None [Typed "Paris"; Submit]))
  /\ error (hooks (run v8_type_error_message None [Typed "Paris"; Submit]))
     = JStr missing_key_message.
Proof.
  split; [reflexivity|].
  apply (no_key_only_configuration_error v8_type_error_message None).
  reflexivity.
Defined.

Lemma fulfilled_request_replaces_weather_only_witness :
  (exists url k,
     nth_error (in_flight (run v8_type_error_message (Some "KEY") [])) 0
     = Some (url, k))
  /\ hooks (step v8_type_error_message (Some "KEY")
              (run v8_type_error_message (Some "KEY") [])
              (Settle 0 (Fulfilled sample_response)))
     = {| city := "London";
          inputCity := "London";
          currentWeatherData := sample_current;
          forecastData := JArr sample_days;
          error := JNull |}.
Proof.
  split.
  - do 2 eexists. reflexivity.
  - eapply (fulfilled_request_replaces_weather_only v8_type_error_message
             (Some "KEY") [] 0 _ _
             [("data",
               JObj [("current", sample_current);
                     ("forecast", JObj [("forecastday", JArr sample_days)])]);
              ("status", JNum (200 # 1)%Q)]
             [("current", sample_current);
              ("forecast", JObj [("forecastday", JArr sample_days)])]
             [("forecastday", JArr sample_days)]);
      reflexivity.
Defined.

Lemma rejection_without_error_object_witness :
  truthy (env_value (Some "KEY")) = true
  /\ nullish JUndefined = true
  /\ trace (fun _ => Rejected JUndefined)
       (fetchWeatherData v8_type_error_message (Some "KEY") "London")
     = [ ESetError JNull; ESetCurrentWeatherData JNull;
         ESetForecastData (JArr []);
         ERequest (forecast_url (Some "KEY") "London");
         EUnhandled (TypeError v8_type_error_message JUndefined "response") ]
  /\ error (fetch_alone v8_type_error_message (Some "KEY")
              (fun _ => Rejected JUndefined) "London" initial_state)
     = JNull
  /\ weather_cleared
       (fetch_alone v8_type_error_message (Some "KEY")
          (fun _ => Rejected JUndefined) "London" initial_state).
Proof.
  split; [reflexivity|]. split; [reflexivity|].
  apply (rejection_without_error_object v8_type_error_message (Some "KEY")
           eq_refl (fun _ => Rejected JUndefined) "London" initial_state
           JUndefined);
    reflexivity.
Defined.

Lemma one_request_per_call_witness :
  truthy (env_value (Some "KEY")) = true
  /\ requests_of
       (trace (fun _ => Rejected network_error)
          (fetchWeatherData v8_type_error_message (Some "KEY") "Paris"))
     = [ "https://api.weatherapi.com/v1/forecast.json?key=KEY&q=Paris&days=7" ].
Proof.
  split; [reflexivity|].
  apply (one_request_per_call v8_type_error_message (Some "KEY") eq_refl).
Defined.

Lemma chartData_is_aligned_witness :
  exists cd,
    chartData v8_type_error_message (JArr sample_days) = Ok cd
    /\ exists days,
         JArr sample_days = JArr days
         /\ List.length (labels cd) = List.length days
         /\ Forall (fun ds => List.length (data ds) = List.length days)
              (datasets cd)
         /\ map label (datasets cd)
            = [ "Avg. Temperature (°F)"; "Max Temperature (°F)";
                "Min Temperature (°F)" ].
Proof.
  eexists. split; [reflexivity|].
  apply (chartData_is_aligned v8_type_error_message (JArr sample_days)).
  reflexivity.
Defined.

Lemma render_shows_the_state_witness :
  exists view,
    render v8_type_error_message
      (hooks (run v8_type_error_message (Some "KEY")
                [Settle 0 (Fulfilled sample_response)]))
    = Ok view
    /\ (forall w,
          card view = Some w ->
          heading w = "Current Weather in London"
          /\ temp_f w = JNum (712 # 10)%Q
          /\ condition_text w = JStr "Partly cloudy"
          /\ humidity w = JNum (64 # 1)%Q
          /\ wind_mph w = JNum (81 # 10)%Q
          /\ wind_dir w = JStr "WSW"
          /\ icon w
             = JStr "//cdn.weatherapi.com/weather/64x64/day/116.png")
    /\ (forall cd title,
          chart view = Some (cd, title) ->
          chartData v8_type_error_message (JArr sample_days) = Ok cd
          /\ title = "7-Day Temperature Forecast for London").
Proof.
  eexists. split; [reflexivity|].
  exact (proj2 (render_shows_the_state v8_type_error_message
                  (hooks (run v8_type_error_message (Some "KEY")
                            [Settle 0 (Fulfilled sample_response)]))
                  _ eq_refl)).
Defined.

Lemma pending_request_renders_nothing_witness :
  truthy (env_value (Some "KEY")) = true
  /\ render v8_type_error_message
       (hooks (exec (fetchWeatherData v8_type_error_message (Some "KEY")
                       "Paris")
                 (run v8_type_error_message (Some "KEY")
                    [Settle 0 (Fulfilled sample_response)])))
     = Ok {| banner := None; card := None; chart := None |}.
Proof.
  split; [reflexivity|].
  apply (pending_request_renders_nothing v8_type_error_message (Some "KEY")
           eq_refl).
Defined.

Lemma forecast_without_array_breaks_render_witness :
  truthy (env_value (Some "KEY")) = true
  /\ is_array JUndefined = false
  /\ error (fetch_alone v8_type_error_message (Some "KEY")
              (fun _ => Fulfilled response_without_forecastday) "London"
              initial_state) = JNull
  /\ render v8_type_error_message
       (fetch_alone v8_type_error_message (Some "KEY")
          (fun _ => Fulfilled response_without_forecastday) "London"
          initial_state)
     = Throw (TypeError v8_type_error_message JUndefined "map").
Proof.
  split; [reflexivity|]. split; [reflexivity|].
  apply (forecast_without_array_breaks_render v8_type_error_message
           (Some "KEY") eq_refl
           (fun _ => Fulfilled response_without_forecastday) "London"
           initial_state
           [("data", JObj [("current", sample_current); ("forecast", JObj [])]);
            ("status", JNum (200 # 1)%Q)]
           [("current", sample_current); ("forecast", JObj [])]
           []);
    reflexivity.
Defined.

Lemma card_without_condition_breaks_render_witness :
  truthy (JObj [("temp_f", JNum (60 # 1)%Q)]) = true
  /\ nullish (own "condition" (JObj [("temp_f", JNum (60 # 1)%Q)])) = true
  /\ render v8_type_error_message
       (store_currentWeatherData (JObj [("temp_f", JNum (60 # 1)%Q)])
          initial_state)
     = Throw (TypeError v8_type_error_message JUndefined "text").
Proof.
  split; [reflexivity|]. split; [reflexivity|].
  eapply (card_without_condition_breaks_render v8_type_error_message
            (store_currentWeatherData (JObj [("temp_f", JNum (60 # 1)%Q)])
               initial_state));
    reflexivity.
Defined.

Lemma tooltip_of_a_series_witness :
  tooltip_label v8_type_error_message whole_number_text
    (JObj [("dataset", JObj [("label", JStr "Max Temperature (°F)")]);
           ("parsed", JObj [("x", JNum (0 # 1)%Q); ("y", JNum (66 # 1)%Q)])])
  = Ok (JStr "Max Temperature (°F): 66°F").
Proof.
  apply (tooltip_of_a_series v8_type_error_message whole_number_text
           (JArr sample_days)
           {| labels := map (own "date") sample_days;
              datasets :=
                [ line_series "Avg. Temperature (°F)"
                    (map (temperature "avgtemp_f") sample_days)
                    "rgb(75, 192, 192)" "rgba(75, 192, 192, 0.5)";
                  line_series "Max Temperature (°F)"
                    (map (temperature "maxtemp_f") sample_days)
                    "rgb(255, 99, 132)" "rgba(255, 99, 132, 0.5)";
                  line_series "Min Temperature (°F)"
                    (map (temperature "mintemp_f") sample_days)
                    "rgb(54, 162, 235)" "rgba(54, 162, 235, 0.5)" ] |}
           (line_series "Max Temperature (°F)"
              (map (temperature "maxtemp_f") sample_days)
              "rgb(255, 99, 132)" "rgba(255, 99, 132, 0.5)")
           [("dataset", JObj [("label", JStr "Max Temperature (°F)")]);
            ("parsed", JObj [("x", JNum (0 # 1)%Q); ("y", JNum (66 # 1)%Q)])]
           [("label", JStr "Max Temperature (°F)")]
           [("x", JNum (0 # 1)%Q); ("y", JNum (66 # 1)%Q)]
           (JNum (66 # 1)%Q));
    try reflexivity.
  right. left. reflexivity.
Defined.

